(** * Broodminder BLE scanner: advertisement decoding, session aggregation
      and the saved-device registry

    A shallow embedding of [broodminder_cli/cli.py] and [broodminder_cli/types.py].

    - Python [int] is [Z]; [bytes] is [list byte], indexing yields the byte's
      value as an [int] and raises [IndexError] out of range.
    - Python [float] is IEEE-754 binary64, here Rocq's primitive [float] with
      the same round-to-nearest operations.  Every integer the decoder turns
      into a float is below [2^17] in magnitude, so the conversion is exact and
      [int / int] is the correctly rounded quotient, as in Python.
    - [None] for an optional field is [None] of [option].
    - Exceptions are explicit: a function returns an [outcome], either
      [Returned v] or [Raised e]. *)

From Stdlib Require Import ZArith String List Strings.Byte Uint63 PrimFloat DecimalString.
From stdpp Require Import base option list gmap strings.

Set Warnings "-inexact-float".

Local Open Scope string_scope.
Local Open Scope Z_scope.

(** ** Exceptions *)

Inductive PyExn : Type :=
| IndexError
| AttributeError
| TypeError
| ValueError
| UnicodeDecodeError
| JSONDecodeError.

#[global] Instance PyExn_eq_dec : EqDecision PyExn.
Proof. solve_decision. Defined.

Inductive outcome (A : Type) : Type :=
| Returned (a : A)
| Raised (e : PyExn).

Arguments Returned {A} a.
Arguments Raised {A} e.

#[global] Instance outcome_ret : MRet outcome := fun A a => Returned a.

#[global] Instance outcome_bind : MBind outcome := fun A B k m =>
  match m with
  | Returned a => k a
  | Raised e => Raised e
  end.

#[global] Instance outcome_fmap : FMap outcome := fun A B f m =>
  match m with
  | Returned a => Returned (f a)
  | Raised e => Raised e
  end.

(** [try: body except (e1, e2, ...): handler] *)
Definition try_except {A} (body : outcome A) (caught : list PyExn) (handler : outcome A)
  : outcome A :=
  match body with
  | Returned a => Returned a
  | Raised e => if bool_decide (e ∈ caught) then handler else Raised e
  end.

(** ** Integers, bytes and floats *)

#[global] Instance byte_eq_dec : EqDecision byte := Byte.byte_eq_dec.

Definition Z_of_byte (b : byte) : Z := Z.of_N (Byte.to_N b).

(** [len(data)] *)
Definition len {A} (data : list A) : Z := Z.of_nat (length data).

(** [data[i]] for a constant index [i >= 0] *)
Definition getitem (data : list byte) (i : nat) : outcome Z :=
  match data !! i with
  | Some b => Returned (Z_of_byte b)
  | None => Raised IndexError
  end.

(** [x in (k1, k2, ...)] on integers *)
Definition in_tuple (x : Z) (ks : list Z) : bool := existsb (Z.eqb x) ks.

(** Conversion of an [int] operand of a float operation. *)
Definition Z2f (z : Z) : float :=
  if z <? 0 then PrimFloat.opp (PrimFloat.of_uint63 (Uint63.of_Z (- z)))
  else PrimFloat.of_uint63 (Uint63.of_Z z).

(** [str(n)] / [f"{n}"] for an integer *)
Definition str_of_int (z : Z) : string := NilZero.string_of_int (Z.to_int z).

(** Truth value of a [str | None] operand of [or]. *)
Definition truthy (s : option string) : bool :=
  match s with
  | None => false
  | Some EmptyString => false
  | Some (String _ _) => true
  end.

(** ** Constants *)

Definition BROODMINDER_MANUFACTURER_ID : Z := 0x028D.

Definition MODEL_NAMES : gmap Z string :=
  list_to_map
    [ (41, "BroodMinder-T");
      (42, "BroodMinder-TH");
      (43, "BroodMinder-W");
      (47, "BroodMinder-TMWC");
      (49, "BroodMinder-XLR");
      (52, "BroodMinder-SubHub");
      (56, "BroodMinder-WS");
      (57, "BroodMinder-WSLR");
      (58, "BroodMinder-WSXLR") ].

Definition SCALE_FACTOR : float := 2%float.

(** ** Data model *)

Module BroodminderDevice.
Record t : Type := mk {
  address : string;
  name : option string;
  friendly_name : option string
}.
End BroodminderDevice.

Module BLEDevice.
Record t : Type := mk { address : string }.
End BLEDevice.

Module AdvertisementData.
(** [manufacturer_data] is a dict; its items are kept in iteration order. *)
Record t : Type := mk {
  local_name : option string;
  manufacturer_data : list (Z * list byte);
  rssi : Z
}.
End AdvertisementData.

Module BroodminderData.
Record t : Type := mk {
  address : string;
  name : option string;
  friendly_name : option string;
  rssi : Z;
  model_number : Z;
  model_name : string;
  firmware_version : string;
  temperature_f : option float;
  temperature_c : option float;
  humidity : option Z;
  weight_left_lbs : option float;
  weight_right_lbs : option float;
  total_weight_lbs : option float;
  battery : option Z;
  elapsed_time : option Z;
  raw_data : option (list byte)
}.

(** Attribute assignment [result.field = v]. *)
Definition set_temperature_f (v : option float) (r : t) : t :=
  mk (address r) (name r) (friendly_name r) (rssi r) (model_number r) (model_name r)
     (firmware_version r) v (temperature_c r) (humidity r) (weight_left_lbs r)
     (weight_right_lbs r) (total_weight_lbs r) (battery r) (elapsed_time r) (raw_data r).
Definition set_temperature_c (v : option float) (r : t) : t :=
  mk (address r) (name r) (friendly_name r) (rssi r) (model_number r) (model_name r)
     (firmware_version r) (temperature_f r) v (humidity r) (weight_left_lbs r)
     (weight_right_lbs r) (total_weight_lbs r) (battery r) (elapsed_time r) (raw_data r).
Definition set_humidity (v : option Z) (r : t) : t :=
  mk (address r) (name r) (friendly_name r) (rssi r) (model_number r) (model_name r)
     (firmware_version r) (temperature_f r) (temperature_c r) v (weight_left_lbs r)
     (weight_right_lbs r) (total_weight_lbs r) (battery r) (elapsed_time r) (raw_data r).
Definition set_weight_left_lbs (v : option float) (r : t) : t :=
  mk (address r) (name r) (friendly_name r) (rssi r) (model_number r) (model_name r)
     (firmware_version r) (temperature_f r) (temperature_c r) (humidity r) v
     (weight_right_lbs r) (total_weight_lbs r) (battery r) (elapsed_time r) (raw_data r).
Definition set_weight_right_lbs (v : option float) (r : t) : t :=
  mk (address r) (name r) (friendly_name r) (rssi r) (model_number r) (model_name r)
     (firmware_version r) (temperature_f r) (temperature_c r) (humidity r)
     (weight_left_lbs r) v (total_weight_lbs r) (battery r) (elapsed_time r) (raw_data r).
Definition set_total_weight_lbs (v : option float) (r : t) : t :=
  mk (address r) (name r) (friendly_name r) (rssi r) (model_number r) (model_name r)
     (firmware_version r) (temperature_f r) (temperature_c r) (humidity r)
     (weight_left_lbs r) (weight_right_lbs r) v (battery r) (elapsed_time r) (raw_data r).
Definition set_battery (v : option Z) (r : t) : t :=
  mk (address r) (name r) (friendly_name r) (rssi r) (model_number r) (model_name r)
     (firmware_version r) (temperature_f r) (temperature_c r) (humidity r)
     (weight_left_lbs r) (weight_right_lbs r) (total_weight_lbs r) v (elapsed_time r)
     (raw_data r).
Definition set_elapsed_time (v : option Z) (r : t) : t :=
  mk (address r) (name r) (friendly_name r) (rssi r) (model_number r) (model_name r)
     (firmware_version r) (temperature_f r) (temperature_c r) (humidity r)
     (weight_left_lbs r) (weight_right_lbs r) (total_weight_lbs r) (battery r) v
     (raw_data r).
End BroodminderData.

Import BroodminderData.

(** ** The decoder: [_process_broodminder_manufacturer_data] *)

(** [data[i] + (data[i+1] << 8)] *)
Definition read_u16 (data : list byte) (i : nat) : outcome Z :=
  lo ← getitem data i;
  hi ← getitem data (S i);
  mret (lo + Z.shiftl hi 8).

(** Attribute access on [saved_device : BroodminderDevice | None]. *)
Definition getattr {A} (saved_device : option BroodminderDevice.t)
    (field : BroodminderDevice.t -> A) : outcome A :=
  match saved_device with
  | Some d => Returned (field d)
  | None => Raised AttributeError
  end.

(** [temp_raw / 65536 * 165 - 40] *)
Definition legacy_temperature_c (temp_raw : Z) : float :=
  (Z2f temp_raw / Z2f 65536 * Z2f 165 - Z2f 40)%float.

(** [(temp_raw / 65536 * 165 - 40) * 9 / 5 + 32] *)
Definition legacy_temperature_f (temp_raw : Z) : float :=
  ((Z2f temp_raw / Z2f 65536 * Z2f 165 - Z2f 40) * Z2f 9 / Z2f 5 + Z2f 32)%float.

(** [(temp_raw - 5000) / 100] *)
Definition current_temperature_c (temp_raw : Z) : float :=
  (Z2f (temp_raw - 5000) / Z2f 100)%float.

(** [temperature_c * 9 / 5 + 32] *)
Definition fahrenheit_of_c (c : float) : float :=
  (c * Z2f 9 / Z2f 5 + Z2f 32)%float.

(** [(raw - 32767) / 100] *)
Definition lbs_of_raw (raw : Z) : float := (Z2f (raw - 32767) / Z2f 100)%float.

(** Lines 176-181: battery and elapsed time. *)
Definition parse_battery (data : list byte) (result : t) : outcome t :=
  battery ← (if 4 <? len data then Some <$> getitem data 4 else mret None);
  let result := set_battery battery result in
  if 6 <? len data then
    elapsed ← read_u16 data 5;
    mret (set_elapsed_time (Some elapsed) result)
  else mret result.

(** Lines 183-194: temperature, by model generation. *)
Definition parse_temperature (model_number : Z) (data : list byte) (result : t)
  : outcome t :=
  if in_tuple model_number [41; 42; 43] && (8 <? len data) then
    temp_raw ← read_u16 data 7;
    let result := set_temperature_f (Some (legacy_temperature_f temp_raw)) result in
    mret (set_temperature_c (Some (legacy_temperature_c temp_raw)) result)
  else if (47 <=? model_number) && (8 <? len data) then
    temp_raw ← read_u16 data 7;
    if 5000 <? temp_raw then
      let c := current_temperature_c temp_raw in
      let result := set_temperature_c (Some c) result in
      mret (set_temperature_f (Some (fahrenheit_of_c c)) result)
    else mret result
  else mret result.

(** Lines 196-198: humidity. *)
Definition parse_humidity (model_number : Z) (data : list byte) (result : t)
  : outcome t :=
  if in_tuple model_number [42; 47] && (14 <? len data) then
    h ← getitem data 14;
    mret (set_humidity (Some h) result)
  else mret result.

(** Lines 214-219: the total derived from the two sides. *)
Definition derive_total (result : t) : t :=
  match weight_left_lbs result, weight_right_lbs result with
  | Some l, Some r => set_total_weight_lbs (Some ((l + r) / Z2f 2 * SCALE_FACTOR)%float) result
  | Some l, None => set_total_weight_lbs (Some (l * SCALE_FACTOR)%float) result
  | None, Some r => set_total_weight_lbs (Some (r * SCALE_FACTOR)%float) result
  | None, None => result
  end.

(** Lines 200-219: left and right weight, and the derived total. *)
Definition parse_weight (model_number : Z) (data : list byte) (result : t)
  : outcome t :=
  if in_tuple model_number [43; 47; 49; 56; 57; 58] && (13 <? len data) then
    result ←
      (if 11 <? len data then
         weight_left_raw ← read_u16 data 10;
         if negb (weight_left_raw =? 0x7FFF)
         then mret (set_weight_left_lbs (Some (lbs_of_raw weight_left_raw)) result)
         else mret result
       else mret result);
    result ←
      (if 13 <? len data then
         weight_right_raw ← read_u16 data 12;
         if negb (weight_right_raw =? 0x7FFF)
         then mret (set_weight_right_lbs (Some (lbs_of_raw weight_right_raw)) result)
         else mret result
       else mret result);
    mret (derive_total result)
  else mret result.

(** Lines 221-226: the total-weight channel of bytes 19-20. *)
Definition parse_total_weight (model_number : Z) (data : list byte) (result : t)
  : outcome t :=
  if in_tuple model_number [43; 47; 49; 56; 57; 58] && (19 <? len data) then
    total_weight_raw ← read_u16 data 19;
    if negb (total_weight_raw =? 0x7FFF)
    then mret (set_total_weight_lbs
                 (Some (lbs_of_raw total_weight_raw * SCALE_FACTOR)%float) result)
    else mret result
  else mret result.

(** Lines 176-219: the blocks before the bytes 19-20 channel. *)
Definition parse_before_override (model_number : Z) (data : list byte) (result : t)
  : outcome t :=
  result ← parse_battery data result;
  result ← parse_temperature model_number data result;
  result ← parse_humidity model_number data result;
  parse_weight model_number data result.

(** Lines 175-226: everything behind the [len(data) >= 15] gate. *)
Definition parse_fields (model_number : Z) (data : list byte) (result : t)
  : outcome t :=
  if 15 <=? len data then
    result ← parse_before_override model_number data result;
    parse_total_weight model_number data result
  else mret result.

(** Lines 163-172: the record as first constructed. *)
Definition initial_result (device : BLEDevice.t) (adv_data : AdvertisementData.t)
    (data : list byte) (model_number version_minor version_major : Z)
    (name friendly_name : option string) : t :=
  {| address := BLEDevice.address device;
     name := name;
     friendly_name := friendly_name;
     rssi := AdvertisementData.rssi adv_data;
     model_number := model_number;
     model_name := default ("Unknown-" ++ str_of_int model_number)
                           (MODEL_NAMES !! model_number);
     firmware_version := str_of_int version_major ++ "." ++ str_of_int version_minor;
     temperature_f := None;
     temperature_c := None;
     humidity := None;
     weight_left_lbs := None;
     weight_right_lbs := None;
     total_weight_lbs := None;
     battery := None;
     elapsed_time := None;
     raw_data := Some data |}.

Definition _process_broodminder_manufacturer_data
    (device : BLEDevice.t) (saved_device : option BroodminderDevice.t)
    (adv_data : AdvertisementData.t) (data : list byte)
  : outcome (option t) :=
  if len data <? 3 then mret None
  else
    model_number ← getitem data 0;
    version_minor ← getitem data 1;
    version_major ← getitem data 2;
    name ← (if truthy (AdvertisementData.local_name adv_data)
            then mret (AdvertisementData.local_name adv_data)
            else getattr saved_device BroodminderDevice.name);
    friendly_name ← getattr saved_device BroodminderDevice.friendly_name;
    let result :=
      initial_result device adv_data data model_number version_minor version_major
                     name friendly_name in
    result ← parse_fields model_number data result;
    mret (Some result).

(** [parse_broodminder_data]: dispatch on the manufacturer id. *)
Fixpoint first_broodminder_item (items : list (Z * list byte)) : option (list byte) :=
  match items with
  | [] => None
  | (manufacturer_id, data) :: items =>
      if manufacturer_id =? BROODMINDER_MANUFACTURER_ID then Some data
      else first_broodminder_item items
  end.

Definition parse_broodminder_data
    (device : BLEDevice.t) (saved_device : option BroodminderDevice.t)
    (adv_data : AdvertisementData.t) : outcome (option t) :=
  match AdvertisementData.manufacturer_data adv_data with
  | [] => mret None
  | items =>
      match first_broodminder_item items with
      | Some data => _process_broodminder_manufacturer_data device saved_device adv_data data
      | None => mret None
      end
  end.

(** ** Session aggregation: the scanner callback *)

(** [a == b] on two distinct float objects. *)
Definition float_opt_eq (a b : option float) : bool :=
  match a, b with
  | Some x, Some y => PrimFloat.eqb x y
  | None, None => true
  | _, _ => false
  end.

(** The dataclass-generated [__eq__]: the tuples of all fields compare equal. *)
Definition data_eq (a b : t) : bool :=
  String.eqb (address a) (address b)
  && bool_decide (name a = name b)
  && bool_decide (friendly_name a = friendly_name b)
  && (rssi a =? rssi b)
  && (model_number a =? model_number b)
  && String.eqb (model_name a) (model_name b)
  && String.eqb (firmware_version a) (firmware_version b)
  && float_opt_eq (temperature_f a) (temperature_f b)
  && float_opt_eq (temperature_c a) (temperature_c b)
  && bool_decide (humidity a = humidity b)
  && float_opt_eq (weight_left_lbs a) (weight_left_lbs b)
  && float_opt_eq (weight_right_lbs a) (weight_right_lbs b)
  && float_opt_eq (total_weight_lbs a) (total_weight_lbs b)
  && bool_decide (battery a = battery b)
  && bool_decide (elapsed_time a = elapsed_time b)
  && bool_decide (raw_data a = raw_data b).

(** The [for existing in devices_found] loop up to its [break]: the first
    entry with the new reading's address, and its position (which stands for
    the identity of that object in the list). *)
Fixpoint find_existing (addr : string) (devices_found : list t) (i : nat)
  : option (nat * t) :=
  match devices_found with
  | [] => None
  | existing :: rest =>
      if String.eqb (address existing) addr then Some (i, existing)
      else find_existing addr rest (S i)
  end.

(** [devices_found.remove(existing)], [existing] being the object at position
    [i]: the first item that is that object, or compares equal to it, goes;
    [ValueError] when there is none. *)
Fixpoint list_remove (existing : t) (i : nat) (devices_found : list t)
  : outcome (list t) :=
  match devices_found with
  | [] => Raised ValueError
  | item :: rest =>
      if Nat.eqb i 0 || data_eq item existing then mret rest
      else cons item <$> list_remove existing (Nat.pred i) rest
  end.

(** Lines 325-332. *)
Definition ingest (devices_found : list t) (broodminder_data : t) : outcome (list t) :=
  devices_found ←
    match find_existing (address broodminder_data) devices_found 0 with
    | Some (i, existing) => list_remove existing i devices_found
    | None => mret devices_found
    end;
  mret (devices_found ++ [broodminder_data])%list.

(** Output format options (lines 61-67). *)
Inductive OutputFormat : Type :=
| TEXT
| TABLE
| JSON
| CSV.

(** Lines 318-320: the device record the callback hands to the decoder, the
    saved one or, for an address not saved, a fresh one carrying the
    advertised name. *)
Definition callback_saved_device (saved_devices : gmap string BroodminderDevice.t)
    (device : BLEDevice.t) (adv_data : AdvertisementData.t) : BroodminderDevice.t :=
  match saved_devices !! BLEDevice.address device with
  | Some d => d
  | None => BroodminderDevice.mk (BLEDevice.address device)
              (AdvertisementData.local_name adv_data) None
  end.

Section Callback.

(** Lines 335-338, the console output for a new reading: [console.print] of
    a caption, of [format_broodminder_data(broodminder_data)] and, with
    [show_raw], of the payload in hex.  The rendering belongs to the console
    library and can raise (it reads markup in the names it prints); its
    outcome is taken as given. *)
Variable console_print_found : bool -> t -> outcome unit.

(** The detection callback of a scan with [output_format] and [show_raw]: the
    state in which it leaves [devices_found], and how the call ends.  An
    exception of the decoder leaves the list as it was; the console output
    comes after the list has been updated. *)
Definition callback (output_format : OutputFormat) (show_raw : bool)
    (saved_devices : gmap string BroodminderDevice.t)
    (devices_found : list t) (device : BLEDevice.t) (adv_data : AdvertisementData.t)
  : list t * outcome unit :=
  let saved_device := callback_saved_device saved_devices device adv_data in
  match parse_broodminder_data device (Some saved_device) adv_data with
  | Raised e => (devices_found, Raised e)
  | Returned None => (devices_found, mret tt)
  | Returned (Some broodminder_data) =>
      match ingest devices_found broodminder_data with
      | Raised e => (devices_found, Raised e)
      | Returned devices_found =>
          (devices_found,
           match output_format with
           | TEXT => console_print_found show_raw broodminder_data
           | _ => mret tt
           end)
      end
  end.

End Callback.

(** A whole session of ingested readings, starting from [devices_found = []]. *)
Fixpoint ingest_all (devices_found : list t) (readings : list t) : outcome (list t) :=
  match readings with
  | [] => mret devices_found
  | r :: readings =>
      devices_found ← ingest devices_found r;
      ingest_all devices_found readings
  end.

(** ** The saved-device registry *)

Definition set_name (v : option string) (d : BroodminderDevice.t) : BroodminderDevice.t :=
  BroodminderDevice.mk (BroodminderDevice.address d) v (BroodminderDevice.friendly_name d).

(** One iteration of the loop of [save_devices] (lines 106-113). *)
Definition update_saved (saved_devices : gmap string BroodminderDevice.t) (device : t)
  : gmap string BroodminderDevice.t :=
  let addr := address device in
  let saved_devices :=
    match saved_devices !! addr with
    | None => <[addr := BroodminderDevice.mk addr None None]> saved_devices
    | Some _ => saved_devices
    end in
  match name device with
  | Some n => alter (set_name (Some n)) addr saved_devices
  | None => saved_devices
  end.

(** [save_devices]: the mapping after the loop, which is what gets dumped to
    the devices file. *)
Definition save_devices (saved_devices : gmap string BroodminderDevice.t)
    (found_devices : list t) : gmap string BroodminderDevice.t :=
  foldl update_saved saved_devices found_devices.

(** *** Loading *)

(** What [json.load] hands back.  An object is given by the items of the dict
    built for it, in iteration order; the keys of a dict are pairwise distinct. *)
#[warnings="-register-all"]
Inductive json : Type :=
| JNull
| JBool (b : bool)
| JInt (z : Z)
| JFloat (f : float)
| JStr (s : string)
| JArr (elems : list json)
| JObj (items : list (string * json)).

(** A [BroodminderDevice] built from keyword arguments: the dataclass
    constructor checks the argument names, not the types of the values. *)
Module LoadedDevice.
Record t : Type := mk {
  address : json;
  name : json;
  friendly_name : json
}.
End LoadedDevice.

(** The devices file as [load_saved_devices] meets it: missing, or present
    with the outcome of [json.load] on it. *)
Inductive devices_file : Type :=
| FileAbsent
| FilePresent (loaded : outcome json).

(** [data.items()] *)
Definition py_items (data : json) : outcome (list (string * json)) :=
  match data with
  | JObj items => mret items
  | _ => Raised AttributeError
  end.

Definition kwarg (k : string) (kwargs : list (string * json)) : option json :=
  snd <$> find (fun kv => String.eqb (fst kv) k) kwargs.

(** The constructor call with [device] unpacked as keyword arguments. *)
Definition construct_device (device : json) : outcome LoadedDevice.t :=
  match device with
  | JObj kwargs =>
      if forallb (fun kv => bool_decide (fst kv ∈ ["address"; "name"; "friendly_name"]))
                 kwargs
      then
        match kwarg "address" kwargs, kwarg "name" kwargs with
        | Some a, Some n =>
            mret (LoadedDevice.mk a n (default JNull (kwarg "friendly_name" kwargs)))
        | _, _ => Raised TypeError
        end
      else Raised TypeError
  | _ => Raised TypeError
  end.

(** The dict comprehension over [data.items()], one constructor call per item. *)
Fixpoint build_devices (items : list (string * json)) (acc : gmap string LoadedDevice.t)
  : outcome (gmap string LoadedDevice.t) :=
  match items with
  | [] => mret acc
  | (addr, device) :: items =>
      d ← construct_device device;
      build_devices items (<[addr := d]> acc)
  end.

Definition load_saved_devices (file : devices_file)
  : outcome (gmap string LoadedDevice.t) :=
  match file with
  | FileAbsent => mret ∅
  | FilePresent loaded =>
      try_except
        (data ← loaded;
         items ← py_items data;
         build_devices items ∅)
        [JSONDecodeError; TypeError]
        (mret ∅)
  end.

(** ** Vocabulary of the statements *)

(** The value of byte [i] of a payload that has one ([0] otherwise). *)
Definition byte_at (data : list byte) (i : nat) : Z :=
  default 0 (Z_of_byte <$> data !! i).

(** Bytes [i], [i+1] read little-endian. *)
Definition u16_at (data : list byte) (i : nat) : Z :=
  byte_at data i + Z.shiftl (byte_at data (S i)) 8.

Definition legacy_models : list Z := [41; 42; 43].
Definition scale_models : list Z := [43; 47; 49; 56; 57; 58].

(** [local_name or saved_device.name] with a saved device at hand. *)
Definition resolved_name (adv_data : AdvertisementData.t) (saved : BroodminderDevice.t)
  : option string :=
  if truthy (AdvertisementData.local_name adv_data)
  then AdvertisementData.local_name adv_data
  else BroodminderDevice.name saved.

(** What the battery block leaves in [result] for a payload of 15 bytes or more. *)
Definition battery_fields (data : list byte) (result : t) : t :=
  set_elapsed_time (Some (u16_at data 5)) (set_battery (Some (byte_at data 4)) result).

(** What the temperature block leaves, same payloads. *)
Definition temperature_fields (model_number : Z) (data : list byte) (result : t) : t :=
  if in_tuple model_number legacy_models then
    set_temperature_c (Some (legacy_temperature_c (u16_at data 7)))
      (set_temperature_f (Some (legacy_temperature_f (u16_at data 7))) result)
  else if (47 <=? model_number) && (5000 <? u16_at data 7) then
    set_temperature_f (Some (fahrenheit_of_c (current_temperature_c (u16_at data 7))))
      (set_temperature_c (Some (current_temperature_c (u16_at data 7))) result)
  else result.

(** What the humidity block leaves, same payloads. *)
Definition humidity_fields (model_number : Z) (data : list byte) (result : t) : t :=
  if in_tuple model_number [42; 47]
  then set_humidity (Some (byte_at data 14)) result
  else result.

(** One side of the scale: converted unless the raw value is the sentinel. *)
Definition side_lbs (raw : Z) : option float :=
  if raw =? 0x7FFF then None else Some (lbs_of_raw raw).

(** What the two-sided weight block leaves, same payloads. *)
Definition weight_fields (model_number : Z) (data : list byte) (result : t) : t :=
  if in_tuple model_number scale_models then
    let result :=
      match side_lbs (u16_at data 10) with
      | Some l => set_weight_left_lbs (Some l) result
      | None => result
      end in
    let result :=
      match side_lbs (u16_at data 12) with
      | Some r => set_weight_right_lbs (Some r) result
      | None => result
      end in
    derive_total result
  else result.

(** The state of [result] when the override block is reached. *)
Definition before_override (model_number : Z) (data : list byte) (result : t) : t :=
  weight_fields model_number data
    (humidity_fields model_number data
       (temperature_fields model_number data (battery_fields data result))).

(** The record built at lines 163-172 for a payload of three bytes or more
    and a saved device. *)
Definition first_result (device : BLEDevice.t) (saved : BroodminderDevice.t)
    (adv_data : AdvertisementData.t) (data : list byte) : t :=
  initial_result device adv_data data (byte_at data 0) (byte_at data 1) (byte_at data 2)
    (resolved_name adv_data saved) (BroodminderDevice.friendly_name saved).

(** The readings that are the last one ingested for their address, in the
    order in which they were ingested. *)
Fixpoint keep_last (readings : list t) : list t :=
  match readings with
  | [] => []
  | r :: rest =>
      if bool_decide (address r ∈ address <$> rest) then keep_last rest
      else r :: keep_last rest
  end.

(** Replacement in place: the entry of the reading's address is overwritten
    where it stands, a new address goes to the end.  This is the snapshot order
    "by first sighting". *)
Fixpoint replace_in_place (r : t) (snapshot : list t) : list t :=
  match snapshot with
  | [] => [r]
  | x :: rest =>
      if String.eqb (address x) (address r) then r :: rest
      else x :: replace_in_place r rest
  end.

Definition first_sighting_snapshot (readings : list t) : list t :=
  foldl (fun snapshot r => replace_in_place r snapshot) [] readings.

(** The last non-absent name among the readings of address [a], [init] when
    there is none. *)
Definition last_name (a : string) (found_devices : list t) (init : option string)
  : option string :=
  foldl (fun acc r =>
           if bool_decide (address r = a)
           then match name r with Some n => Some n | None => acc end
           else acc)
        init found_devices.

(** ** Concrete payloads for the examples *)

Definition B (z : Z) : byte := default "000"%byte (Byte.of_N (Z.to_N z)).

Definition dev0 : BLEDevice.t := BLEDevice.mk "AA:BB".
Definition saved0 : BroodminderDevice.t :=
  BroodminderDevice.mk "AA:BB" (Some "Hive1") (Some "Back yard").
Definition adv0 : AdvertisementData.t := AdvertisementData.mk None [] (-60).

(** The 15-byte vector of a TH sensor: firmware 1.3, raw temperature 0. *)
Definition payload_TH : list byte :=
  map B [42; 3; 1; 0; 0; 10; 0; 0; 0; 0; 0; 0; 0; 0; 55].

(** A T sensor sending 9 bytes: bytes 7-8 are there, raw temperature 0. *)
Definition payload_T_9 : list byte := map B [41; 3; 1; 0; 0; 10; 0; 0; 0].

(** A W scale sending 20 bytes: byte 19 is the last one. *)
Definition payload_W_20 : list byte :=
  map B [43; 3; 1; 0; 90; 10; 0; 0; 0; 0; 0x10; 0x80; 0x20; 0x80; 0; 0; 0; 0; 0; 0x30].

(** A W scale sending 21 bytes: both sides and the bytes 19-20 channel
    ([0x8030], i.e. 0.49 lbs before scaling) carry a value. *)
Definition payload_W_21 : list byte :=
  map B [43; 3; 1; 0; 90; 10; 0; 0; 0; 0; 0x10; 0x80; 0x20; 0x80; 0; 0; 0; 0; 0; 0x30;
         0x80].

(** A W scale sending 14 bytes: left side at the sentinel, right side raw 0x8020. *)
Definition payload_W_14 : list byte :=
  map B [43; 3; 1; 0; 90; 10; 0; 0; 0; 0; 0xFF; 0x7F; 0x20; 0x80].

(** The same with a fifteenth byte. *)
Definition payload_W_15 : list byte :=
  map B [43; 3; 1; 0; 90; 10; 0; 0; 0; 0; 0xFF; 0x7F; 0x20; 0x80; 0].

(** A SubHub (model 52) with raw temperature 5001 ([0x1389]) and 5000 ([0x1388]). *)
Definition payload_SubHub_5001 : list byte :=
  map B [52; 3; 1; 0; 90; 10; 0; 0x89; 0x13; 0; 0; 0; 0; 0; 0].
Definition payload_SubHub_5000 : list byte :=
  map B [52; 3; 1; 0; 90; 10; 0; 0x88; 0x13; 0; 0; 0; 0; 0; 0].

(** A SubHub sending 9 bytes, raw temperature 5001 in bytes 7-8. *)
Definition payload_SubHub_9 : list byte := map B [52; 3; 1; 0; 90; 10; 0; 0x89; 0x13].

(** A three-byte payload: model and firmware version only. *)
Definition payload_3 : list byte := map B [41; 3; 1].

(** Three readings of one session: hive A, hive B, hive A again. *)
Definition reading_of (addr : string) (signal : Z) : t :=
  {| address := addr; name := Some "Hive"; friendly_name := None; rssi := signal;
     model_number := 41; model_name := "BroodMinder-T"; firmware_version := "1.3";
     temperature_f := None; temperature_c := None; humidity := None;
     weight_left_lbs := None; weight_right_lbs := None; total_weight_lbs := None;
     battery := None; elapsed_time := None; raw_data := Some payload_3 |}.

Definition reading_A1 : t := reading_of "AA:01" (-70).
Definition reading_B1 : t := reading_of "BB:02" (-60).
Definition reading_A2 : t := reading_of "AA:01" (-50).

(** A reading of address [addr] whose resolved name is [n]. *)
Definition reading_named (addr : string) (n : option string) : t :=
  {| address := addr; name := n; friendly_name := None; rssi := -60;
     model_number := 41; model_name := "BroodMinder-T"; firmware_version := "1.3";
     temperature_f := None; temperature_c := None; humidity := None;
     weight_left_lbs := None; weight_right_lbs := None; total_weight_lbs := None;
     battery := None; elapsed_time := None; raw_data := Some payload_3 |}.

(** ** The device table of [monitor] and [influx_push] *)

(** [devices[k] = v] on a dict given by its items in insertion order: the
    value of a key already there is replaced where the key stands, a new key
    goes to the end. *)
Fixpoint dict_set (k : string) (v : t) (devices : list (string * t))
  : list (string * t) :=
  match devices with
  | [] => [(k, v)]
  | (k', v') :: rest =>
      if String.eqb k' k then (k', v) :: rest
      else (k', v') :: dict_set k v rest
  end.

(** [for device in found_devices: devices[device.address] = device] *)
Definition update_devices (devices : list (string * t)) (found_devices : list t)
  : list (string * t) :=
  foldl (fun devices device => dict_set (address device) device devices)
        devices found_devices.

(** The table after a run of scans, from [devices = {}]. *)
Definition monitor_devices (scans : list (list t)) : list (string * t) :=
  foldl update_devices [] scans.

(** [list(devices.values())] *)
Definition dict_values (devices : list (string * t)) : list t := snd <$> devices.

(** ** [output_json] *)

Inductive py_value : Type :=
| PyNone
| PyInt (z : Z)
| PyFloat (f : float)
| PyStr (s : string).

Definition py_float (f : option float) : py_value :=
  match f with
  | Some x => PyFloat x
  | None => PyNone
  end.

(** The dict [device_data] built for one device, as its items in insertion
    order; [timestamp] is [datetime.now().isoformat()]. *)
Definition json_device_data (timestamp : string) (device : t)
  : list (string * py_value) :=
  let device_data :=
    [ ("address", PyStr (address device));
      ("rssi", PyInt (rssi device));
      ("model_number", PyInt (model_number device));
      ("model_name", PyStr (model_name device));
      ("firmware_version", PyStr (firmware_version device));
      ("timestamp", PyStr timestamp) ] in
  let device_data :=
    match battery device with
    | Some b => (device_data ++ [("battery", PyInt b)])%list
    | None => device_data
    end in
  let device_data :=
    match elapsed_time device with
    | Some e => (device_data ++ [("elapsed_time", PyInt e)])%list
    | None => device_data
    end in
  let device_data :=
    match temperature_c device with
    | Some c =>
        (device_data ++ [("temperature_c", PyFloat c);
                         ("temperature_f", py_float (temperature_f device))])%list
    | None => device_data
    end in
  let device_data :=
    match humidity device with
    | Some h => (device_data ++ [("humidity", PyInt h)])%list
    | None => device_data
    end in
  match total_weight_lbs device with
  | Some total =>
      let device_data := (device_data ++ [("total_weight_lbs", PyFloat total)])%list in
      let device_data :=
        match weight_left_lbs device with
        | Some l => (device_data ++ [("weight_left_lbs", PyFloat l)])%list
        | None => device_data
        end in
      match weight_right_lbs device with
      | Some r => (device_data ++ [("weight_right_lbs", PyFloat r)])%list
      | None => device_data
      end
  | None => device_data
  end.

(** ** InfluxDB: [influx.py] *)

(** [a or b] on [str | None] operands. *)
Definition str_or (a b : option string) : option string :=
  if truthy a then a else b.

Module InfluxDBConfig.
Record t : Type := mk {
  url : option string;
  token : option string;
  org : option string;
  bucket : option string;
  measurement : string
}.
End InfluxDBConfig.



(** A [Point]: tags and fields in the order they were set. *)
Module Point.
Record t : Type := mk {
  measurement : string;
  tags : list (string * string);
  fields : list (string * py_value);
  time : Z
}.
Definition field (k : string) (v : py_value) (p : t) : t :=
  mk (measurement p) (tags p) (fields p ++ [(k, v)])%list (time p).
End Point.

(** [a > 0] for [a : float | None]: comparing [None] with an [int] raises. *)
Definition gt_zero (a : option float) : outcome bool :=
  match a with
  | Some x => mret (PrimFloat.ltb (Z2f 0) x)
  | None => Raised TypeError
  end.

(** [InfluxDBWriter.broodminder_to_point]; [now] is
    [datetime.now(timezone.utc)]. *)
Definition broodminder_to_point (config : InfluxDBConfig.t) (now : Z) (data : t)
    (timestamp : option Z) : outcome Point.t :=
  let ts := default now timestamp in
  let point :=
    Point.mk (InfluxDBConfig.measurement config)
      [ ("device_address", address data);
        ("device_name", default (address data) (str_or (name data) (Some (address data))));
        ("model_name", model_name data);
        ("model_number", str_of_int (model_number data));
        ("friendly_name", default "" (str_or (friendly_name data) (Some ""))) ]
      [] ts in
  let point :=
    match temperature_c data with
    | Some c =>
        Point.field "temperature_f" (py_float (temperature_f data))
          (Point.field "temperature_c" (PyFloat c) point)
    | None => point
    end in
  let point :=
    match humidity data with
    | Some h => Point.field "humidity" (PyInt h) point
    | None => point
    end in
  point ←
    match total_weight_lbs data with
    | Some total =>
        if PrimFloat.ltb (Z2f 0) total
        then mret (Point.field "total_weight_lbs" (PyFloat total) point)
        else mret point
    | None => mret point
    end;
  point ←
    match weight_left_lbs data with
    | Some l =>
        positive ← gt_zero (total_weight_lbs data);
        if positive : bool then mret (Point.field "weight_left_lbs" (PyFloat l) point)
        else mret point
    | None => mret point
    end;
  point ←
    match weight_right_lbs data with
    | Some r =>
        positive ← gt_zero (total_weight_lbs data);
        if positive : bool then mret (Point.field "weight_right_lbs" (PyFloat r) point)
        else mret point
    | None => mret point
    end;
  let point :=
    match battery data with
    | Some b => Point.field "battery" (PyInt b) point
    | None => point
    end in
  mret (Point.field "rssi" (PyInt (rssi data)) point).



(** ** Writing the devices file, as JSON values *)

Definition json_of_str (s : option string) : json :=
  match s with
  | Some s => JStr s
  | None => JNull
  end.

(** [asdict(device)] *)
Definition asdict (d : BroodminderDevice.t) : json :=
  JObj [ ("address", JStr (BroodminderDevice.address d));
         ("name", json_of_str (BroodminderDevice.name d));
         ("friendly_name", json_of_str (BroodminderDevice.friendly_name d)) ].

(** [devices_dict], the value [json.dump] writes (line 117). *)
Definition devices_dict (saved_devices : gmap string BroodminderDevice.t) : json :=
  JObj (prod_map id asdict <$> map_to_list saved_devices).

(** The record [load_saved_devices] builds back from [asdict(device)]. *)
Definition loaded_of (d : BroodminderDevice.t) : LoadedDevice.t :=
  LoadedDevice.mk (JStr (BroodminderDevice.address d))
    (json_of_str (BroodminderDevice.name d))
    (json_of_str (BroodminderDevice.friendly_name d)).

(** The total the two sides give: their mean when both are there, the one
    that is there otherwise, each times [SCALE_FACTOR]. *)
Definition sides_total (left right : option float) : option float :=
  match left, right with
  | Some l, Some r => Some ((l + r) / Z2f 2 * SCALE_FACTOR)%float
  | Some l, None => Some (l * SCALE_FACTOR)%float
  | None, Some r => Some (r * SCALE_FACTOR)%float
  | None, None => None
  end.

(** A W scale sending 15 bytes with both sides: raw [0x8010] and [0x8020]. *)
Definition payload_W_both : list byte :=
  map B [43; 3; 1; 0; 90; 10; 0; 0; 0; 0; 0x10; 0x80; 0x20; 0x80; 0].

(** A model code outside the table, 15 bytes. *)
Definition payload_unknown_44 : list byte :=
  map B [44; 3; 1; 0; 90; 10; 0; 0x89; 0x13; 0; 0x10; 0x80; 0x20; 0x80; 55].

(** An advertisement whose local name is the empty string. *)
Definition adv_empty_name : AdvertisementData.t :=
  AdvertisementData.mk (Some "") [(BROODMINDER_MANUFACTURER_ID, payload_3)] (-60).

(** A console whose output raises for every reading. *)
Definition console_failing (show_raw : bool) (r : t) : outcome unit := Raised ValueError.

(** An advertisement with another vendor's data before Broodminder's. *)
Definition adv_two_vendors (data : list byte) : AdvertisementData.t :=
  AdvertisementData.mk (Some "Hive1")
    [(0x004C, map B [2; 21]); (BROODMINDER_MANUFACTURER_ID, data)] (-60).

(** A devices file with one good record and one record without ["name"]. *)
Definition file_one_bad_record : json :=
  JObj [ ("AA:BB", JObj [ ("address", JStr "AA:BB"); ("name", JStr "Hive1");
                          ("friendly_name", JStr "Back yard") ]);
         ("CC:DD", JObj [ ("address", JStr "CC:DD") ]) ].

(** A registry with one device, named by the user. *)
Definition registry0 : gmap string BroodminderDevice.t :=
  {[ "AA:01" := BroodminderDevice.mk "AA:01" (Some "Old name") (Some "Back yard") ]}.

(** The readings the decoder can return. *)
Definition decoded (r : t) : Prop :=
  exists device saved_device adv_data data,
    _process_broodminder_manufacturer_data device saved_device adv_data data
    = Returned (Some r).

(** A record that no decoding gives: a left weight without a total. *)
Definition reading_side_only : t :=
  {| address := "AA:BB"; name := None; friendly_name := None; rssi := -60;
     model_number := 43; model_name := "BroodMinder-W"; firmware_version := "1.3";
     temperature_f := None; temperature_c := None; humidity := None;
     weight_left_lbs := Some 1%float; weight_right_lbs := None;
     total_weight_lbs := None;
     battery := None; elapsed_time := None; raw_data := None |}.

(** A W scale whose both sides read below the zero point: raw [0x7F00]. *)
Definition payload_W_negative : list byte :=
  map B [43; 3; 1; 0; 90; 10; 0; 0; 0; 0; 0x00; 0x7F; 0x00; 0x7F; 0].

Definition config0 : InfluxDBConfig.t :=
  InfluxDBConfig.mk (Some "http://localhost:8086") (Some "secret") (Some "my-org")
    (Some "broodminder") "broodminder".

(** The reading has a total weight, and it is above zero. *)
Definition positive_total (r : t) : Prop :=
  exists total, total_weight_lbs r = Some total /\ PrimFloat.ltb (Z2f 0) total = true.

(** * Properties *)

Example spec_vector_TH :
  _process_broodminder_manufacturer_data dev0 (Some saved0) adv0 payload_TH
  = Returned (Some
      {| address := "AA:BB"; name := Some "Hive1"; friendly_name := Some "Back yard";
         rssi := -60; model_number := 42; model_name := "BroodMinder-TH";
         firmware_version := "1.3";
         temperature_f := Some (-40)%float; temperature_c := Some (-40)%float;
         humidity := Some 55;
         weight_left_lbs := None; weight_right_lbs := None; total_weight_lbs := None;
         battery := Some 0; elapsed_time := Some 10;
         raw_data := Some payload_TH |}).
Proof. vm_compute. reflexivity. Qed.

(** ** The exception monad *)

Lemma bind_Returned {A B} (k : A -> outcome B) (a : A) :
  (Returned a ≫= k) = k a.
Proof. reflexivity. Qed.

Lemma bind_Returned_inv {A B} (m : outcome A) (k : A -> outcome B) (b : B) :
  (m ≫= k) = Returned b -> exists a, m = Returned a /\ k a = Returned b.
Proof. destruct m as [a|e]; [eauto | discriminate]. Qed.

(** ** Payload access *)

Lemma getitem_lt (data : list byte) (i : nat) :
  Z.of_nat i < len data -> getitem data i = Returned (byte_at data i).
Proof.
  unfold len, getitem, byte_at. intros H.
  destruct (lookup_lt_is_Some_2 data i ltac:(lia)) as [b ->]. reflexivity.
Qed.

Lemma getitem_ge (data : list byte) (i : nat) :
  len data <= Z.of_nat i -> getitem data i = Raised IndexError.
Proof.
  unfold len, getitem. intros H.
  rewrite (lookup_ge_None_2 data i) by lia. reflexivity.
Qed.

Lemma read_u16_lt (data : list byte) (i : nat) :
  Z.of_nat (S i) < len data -> read_u16 data i = Returned (u16_at data i).
Proof.
  intros H. unfold read_u16, u16_at.
  rewrite !getitem_lt by lia. reflexivity.
Qed.

Lemma byte_at_range (data : list byte) (i : nat) : 0 <= byte_at data i < 256.
Proof.
  unfold byte_at. destruct (data !! i) as [b|]; simpl; [|lia].
  unfold Z_of_byte. pose proof (Byte.to_N_bounded b). lia.
Qed.

(** A 16-bit field is below [2^16]: every integer the decoder converts to a
    float is exactly representable. *)
Lemma u16_at_range (data : list byte) (i : nat) : 0 <= u16_at data i < 65536.
Proof.
  unfold u16_at. rewrite Z.shiftl_mul_pow2 by lia.
  pose proof (byte_at_range data i). pose proof (byte_at_range data (S i)). lia.
Qed.

Ltac len_tests :=
  repeat match goal with
    | |- context [?a <? len ?d] =>
        first [ rewrite (proj2 (Z.ltb_lt a (len d))) by lia
              | rewrite (proj2 (Z.ltb_ge a (len d))) by lia ]
    | |- context [?a <=? len ?d] =>
        first [ rewrite (proj2 (Z.leb_le a (len d))) by lia
              | rewrite (proj2 (Z.leb_gt a (len d))) by lia ]
    | |- context [len ?d <? ?a] =>
        first [ rewrite (proj2 (Z.ltb_lt (len d) a)) by lia
              | rewrite (proj2 (Z.ltb_ge (len d) a)) by lia ]
    end.

(** ** The blocks of the decoder, one by one *)

Lemma parse_battery_returns (data : list byte) (result : t) :
  15 <= len data ->
  parse_battery data result = Returned (battery_fields data result).
Proof.
  intros H. unfold parse_battery, battery_fields. len_tests.
  rewrite getitem_lt, read_u16_lt by lia. reflexivity.
Qed.

Lemma parse_temperature_returns (model_number : Z) (data : list byte) (result : t) :
  15 <= len data ->
  parse_temperature model_number data result
  = Returned (temperature_fields model_number data result).
Proof.
  intros H. unfold parse_temperature, temperature_fields, legacy_models. len_tests.
  rewrite !andb_true_r, read_u16_lt by lia.
  destruct (in_tuple model_number [41; 42; 43]); [reflexivity|].
  destruct (47 <=? model_number); [|reflexivity]. simpl.
  destruct (5000 <? u16_at data 7); reflexivity.
Qed.

Lemma parse_humidity_returns (model_number : Z) (data : list byte) (result : t) :
  15 <= len data ->
  parse_humidity model_number data result
  = Returned (humidity_fields model_number data result).
Proof.
  intros H. unfold parse_humidity, humidity_fields. len_tests.
  rewrite andb_true_r, getitem_lt by lia.
  destruct (in_tuple model_number [42; 47]); reflexivity.
Qed.

Lemma parse_weight_returns (model_number : Z) (data : list byte) (result : t) :
  15 <= len data ->
  parse_weight model_number data result
  = Returned (weight_fields model_number data result).
Proof.
  intros H. unfold parse_weight, weight_fields, side_lbs, scale_models. len_tests.
  rewrite andb_true_r, !read_u16_lt by lia.
  destruct (in_tuple model_number [43; 47; 49; 56; 57; 58]); [|reflexivity].
  simpl. destruct (u16_at data 10 =? 32767), (u16_at data 12 =? 32767); reflexivity.
Qed.

(** The bytes 19-20 block needs byte 20, which a 20-byte payload lacks. *)
Lemma parse_total_weight_returns (model_number : Z) (data : list byte) (result : t) :
  len data <> 20 ->
  parse_total_weight model_number data result
  = Returned
      (if in_tuple model_number scale_models && (19 <? len data)
          && negb (u16_at data 19 =? 0x7FFF)
       then set_total_weight_lbs
              (Some (lbs_of_raw (u16_at data 19) * SCALE_FACTOR)%float) result
       else result).
Proof.
  intros H. unfold parse_total_weight, scale_models.
  destruct (in_tuple model_number [43; 47; 49; 56; 57; 58]); [|reflexivity].
  destruct (Z.ltb_spec 19 (len data)); [|reflexivity].
  rewrite read_u16_lt by lia. simpl.
  destruct (u16_at data 19 =? 32767); reflexivity.
Qed.

Lemma parse_total_weight_unscaled (model_number : Z) (data : list byte) (result : t) :
  in_tuple model_number scale_models = false ->
  parse_total_weight model_number data result = Returned result.
Proof.
  intros H. unfold parse_total_weight. fold scale_models. rewrite H. reflexivity.
Qed.

Lemma parse_total_weight_raises (model_number : Z) (data : list byte) (result : t) :
  in_tuple model_number scale_models = true ->
  len data = 20 ->
  parse_total_weight model_number data result = Raised IndexError.
Proof.
  intros Hm H. unfold parse_total_weight, read_u16. fold scale_models. rewrite Hm.
  len_tests. rewrite (getitem_lt data 19), (getitem_ge data 20) by lia. reflexivity.
Qed.

(** The override block writes [total_weight_lbs] and nothing else. *)
Lemma parse_total_weight_frame (model_number : Z) (data : list byte) (result r : t) :
  parse_total_weight model_number data result = Returned r ->
  r = set_total_weight_lbs (total_weight_lbs r) result.
Proof.
  unfold parse_total_weight.
  destruct (in_tuple model_number _ && _).
  - intros H. apply bind_Returned_inv in H as (raw & _ & H).
    destruct (negb (raw =? 32767)); injection H as <-; destruct result; reflexivity.
  - intros H. injection H as <-. destruct result; reflexivity.
Qed.

Lemma parse_before_override_returns (model_number : Z) (data : list byte) (result : t) :
  15 <= len data ->
  parse_before_override model_number data result
  = Returned (before_override model_number data result).
Proof.
  intros H. unfold parse_before_override, before_override.
  rewrite parse_battery_returns by lia. rewrite bind_Returned.
  rewrite parse_temperature_returns by lia. rewrite bind_Returned.
  rewrite parse_humidity_returns by lia. rewrite bind_Returned.
  rewrite parse_weight_returns by lia. reflexivity.
Qed.

Lemma parse_fields_short (model_number : Z) (data : list byte) (result : t) :
  len data < 15 -> parse_fields model_number data result = Returned result.
Proof. intros H. unfold parse_fields. len_tests. reflexivity. Qed.

Lemma parse_fields_long (model_number : Z) (data : list byte) (result : t) :
  15 <= len data ->
  parse_fields model_number data result
  = parse_total_weight model_number data (before_override model_number data result).
Proof.
  intros H. unfold parse_fields. len_tests.
  rewrite parse_before_override_returns by lia. reflexivity.
Qed.

(** ** The decoder as a whole *)

Lemma process_short (device : BLEDevice.t) (saved_device : option BroodminderDevice.t)
    (adv_data : AdvertisementData.t) (data : list byte) :
  len data < 3 ->
  _process_broodminder_manufacturer_data device saved_device adv_data data
  = Returned None.
Proof.
  intros H. unfold _process_broodminder_manufacturer_data. len_tests. reflexivity.
Qed.

Lemma process_no_saved_device (device : BLEDevice.t) (adv_data : AdvertisementData.t)
    (data : list byte) :
  3 <= len data ->
  _process_broodminder_manufacturer_data device None adv_data data
  = Raised AttributeError.
Proof.
  intros H. unfold _process_broodminder_manufacturer_data. len_tests.
  rewrite !getitem_lt by lia. rewrite !bind_Returned.
  destruct (truthy (AdvertisementData.local_name adv_data)); reflexivity.
Qed.

Lemma process_saved_device (device : BLEDevice.t) (saved : BroodminderDevice.t)
    (adv_data : AdvertisementData.t) (data : list byte) :
  3 <= len data ->
  _process_broodminder_manufacturer_data device (Some saved) adv_data data
  = Some <$> parse_fields (byte_at data 0) data (first_result device saved adv_data data).
Proof.
  intros H. unfold _process_broodminder_manufacturer_data, first_result, resolved_name.
  len_tests. rewrite !getitem_lt by lia. rewrite !bind_Returned.
  destruct (truthy (AdvertisementData.local_name adv_data)); simpl;
    destruct (parse_fields _ _ _); reflexivity.
Qed.

(** Every reading the decoder returns comes from a payload of at least three
    bytes and a saved device, through [parse_fields]. *)
Lemma process_returned_inv (device : BLEDevice.t)
    (saved_device : option BroodminderDevice.t) (adv_data : AdvertisementData.t)
    (data : list byte) (r : t) :
  _process_broodminder_manufacturer_data device saved_device adv_data data
  = Returned (Some r) ->
  exists saved,
    saved_device = Some saved /\ 3 <= len data /\
    parse_fields (byte_at data 0) data (first_result device saved adv_data data)
    = Returned r.
Proof.
  intros H. destruct (Z.lt_ge_cases (len data) 3) as [Hlen|Hlen].
  - rewrite process_short in H by lia. discriminate.
  - destruct saved_device as [saved|].
    + rewrite process_saved_device in H by lia.
      exists saved. split; [reflexivity|]. split; [lia|].
      destruct (parse_fields _ _ _); simpl in H; [|discriminate].
      injection H as ->. reflexivity.
    + rewrite process_no_saved_device in H by lia. discriminate.
Qed.

(** When the decoder returns a reading: a saved device is at hand and the
    payload is not a 20-byte payload of a scale model. *)
Lemma process_returns (device : BLEDevice.t) (saved_device : option BroodminderDevice.t)
    (adv_data : AdvertisementData.t) (data : list byte) :
  3 <= len data ->
  is_Some saved_device ->
  in_tuple (byte_at data 0) scale_models = false \/ len data <> 20 ->
  exists r,
    _process_broodminder_manufacturer_data device saved_device adv_data data
    = Returned (Some r).
Proof.
  intros Hlen [saved ->] Hok.
  rewrite process_saved_device by lia.
  destruct (Z.lt_ge_cases (len data) 15) as [Hs|Hl].
  - rewrite parse_fields_short by lia. eexists. reflexivity.
  - rewrite parse_fields_long by lia. destruct Hok as [Hm|Hn].
    + rewrite parse_total_weight_unscaled by exact Hm. eexists. reflexivity.
    + rewrite parse_total_weight_returns by exact Hn. eexists. reflexivity.
Qed.

(** A reading returned for a payload of 15 bytes or more is the state before
    the override block, with [total_weight_lbs] possibly rewritten. *)
Lemma process_long_inv (device : BLEDevice.t) (saved_device : option BroodminderDevice.t)
    (adv_data : AdvertisementData.t) (data : list byte) (r : t) :
  15 <= len data ->
  _process_broodminder_manufacturer_data device saved_device adv_data data
  = Returned (Some r) ->
  exists saved,
    saved_device = Some saved /\
    parse_total_weight (byte_at data 0) data
      (before_override (byte_at data 0) data (first_result device saved adv_data data))
    = Returned r.
Proof.
  intros Hlen H. apply process_returned_inv in H as (saved & -> & _ & H).
  rewrite parse_fields_long in H by lia. eauto.
Qed.

Lemma process_short_inv (device : BLEDevice.t) (saved_device : option BroodminderDevice.t)
    (adv_data : AdvertisementData.t) (data : list byte) (r : t) :
  len data < 15 ->
  _process_broodminder_manufacturer_data device saved_device adv_data data
  = Returned (Some r) ->
  exists saved,
    saved_device = Some saved /\ r = first_result device saved adv_data data.
Proof.
  intros Hlen H. apply process_returned_inv in H as (saved & -> & _ & H).
  rewrite parse_fields_short in H by lia. injection H as <-. eauto.
Qed.

(** ** What each block leaves in the fields *)

Ltac split_ifs :=
  repeat match goal with
    | |- context [if ?b then _ else _] => destruct b
    end.

Ltac block_fields :=
  unfold before_override, weight_fields, humidity_fields, temperature_fields,
    battery_fields, derive_total, side_lbs;
  split_ifs; simpl; repeat case_match; simpl in *; try congruence; auto.

Lemma before_override_temperature_c (model_number : Z) (data : list byte) (result : t) :
  temperature_c (before_override model_number data result)
  = if in_tuple model_number legacy_models
    then Some (legacy_temperature_c (u16_at data 7))
    else if (47 <=? model_number) && (5000 <? u16_at data 7)
         then Some (current_temperature_c (u16_at data 7))
         else temperature_c result.
Proof. destruct result. block_fields. Qed.

Lemma before_override_temperature_f (model_number : Z) (data : list byte) (result : t) :
  temperature_f (before_override model_number data result)
  = if in_tuple model_number legacy_models
    then Some (legacy_temperature_f (u16_at data 7))
    else if (47 <=? model_number) && (5000 <? u16_at data 7)
         then Some (fahrenheit_of_c (current_temperature_c (u16_at data 7)))
         else temperature_f result.
Proof. destruct result. block_fields. Qed.

Lemma before_override_weight_left (model_number : Z) (data : list byte) (result : t) :
  weight_left_lbs (before_override model_number data result)
  = if in_tuple model_number scale_models
    then match side_lbs (u16_at data 10) with
         | Some l => Some l
         | None => weight_left_lbs result
         end
    else weight_left_lbs result.
Proof. destruct result. block_fields. Qed.

Lemma before_override_weight_right (model_number : Z) (data : list byte) (result : t) :
  weight_right_lbs (before_override model_number data result)
  = if in_tuple model_number scale_models
    then match side_lbs (u16_at data 12) with
         | Some r => Some r
         | None => weight_right_lbs result
         end
    else weight_right_lbs result.
Proof. destruct result. block_fields. Qed.

Lemma before_override_total_right_only (model_number : Z) (data : list byte)
    (result : t) :
  in_tuple model_number scale_models = true ->
  weight_left_lbs result = None ->
  u16_at data 10 = 0x7FFF ->
  u16_at data 12 <> 0x7FFF ->
  total_weight_lbs (before_override model_number data result)
  = Some (lbs_of_raw (u16_at data 12) * SCALE_FACTOR)%float.
Proof.
  intros Hm Hl H10 H12. apply Z.eqb_neq in H12.
  unfold before_override, weight_fields, side_lbs. rewrite Hm, H10, H12. simpl.
  destruct result. simpl in Hl. subst. block_fields.
Qed.

Lemma parse_total_weight_keeps (model_number : Z) (data : list byte) (result r : t) :
  parse_total_weight model_number data result = Returned r ->
  temperature_c r = temperature_c result /\
  temperature_f r = temperature_f result /\
  weight_left_lbs r = weight_left_lbs result /\
  weight_right_lbs r = weight_right_lbs result /\
  name r = name result /\
  friendly_name r = friendly_name result.
Proof.
  intros H. apply parse_total_weight_frame in H. rewrite H. simpl. repeat split.
Qed.

Lemma before_override_name (model_number : Z) (data : list byte) (result : t) :
  name (before_override model_number data result) = name result /\
  friendly_name (before_override model_number data result) = friendly_name result.
Proof. destruct result. block_fields. Qed.

Lemma legacy_f_of_c (temp_raw : Z) :
  legacy_temperature_f temp_raw = fahrenheit_of_c (legacy_temperature_c temp_raw).
Proof. reflexivity. Qed.

(** The temperature fields of any reading the decoder returns. *)
Lemma process_temperature (device : BLEDevice.t)
    (saved_device : option BroodminderDevice.t) (adv_data : AdvertisementData.t)
    (data : list byte) (r : t) :
  _process_broodminder_manufacturer_data device saved_device adv_data data
  = Returned (Some r) ->
  (temperature_c r, temperature_f r)
  = if 15 <=? len data then
      if in_tuple (byte_at data 0) legacy_models then
        (Some (legacy_temperature_c (u16_at data 7)),
         Some (legacy_temperature_f (u16_at data 7)))
      else if (47 <=? byte_at data 0) && (5000 <? u16_at data 7) then
        (Some (current_temperature_c (u16_at data 7)),
         Some (fahrenheit_of_c (current_temperature_c (u16_at data 7))))
      else (None, None)
    else (None, None).
Proof.
  intros H. destruct (Z.leb_spec 15 (len data)) as [Hl|Hs].
  - apply process_long_inv in H as (saved & -> & H); [|lia].
    apply parse_total_weight_keeps in H as (-> & -> & _).
    rewrite before_override_temperature_c, before_override_temperature_f.
    split_ifs; reflexivity.
  - apply process_short_inv in H as (saved & -> & ->); [|lia]. reflexivity.
Qed.

(** ** The claims about the decoder *)

(** C1.  The decoder is claimed never to raise, for scale-capable payloads of
    every length, "including length exactly 20".  It does raise there: the
    bytes 19-20 block is guarded by [len(data) > 19] and then reads
    [data[20]], so for every scale model and every 20-byte payload the call
    ends in [IndexError] instead of a reading. *)
Theorem C1_scale_payload_of_20_bytes_raises (device : BLEDevice.t)
    (saved : BroodminderDevice.t) (adv_data : AdvertisementData.t) (data : list byte) :
  in_tuple (byte_at data 0) scale_models = true ->
  len data = 20 ->
  _process_broodminder_manufacturer_data device (Some saved) adv_data data
  = Raised IndexError.
Proof.
  intros Hm Hlen. rewrite process_saved_device by lia.
  rewrite parse_fields_long by lia.
  rewrite parse_total_weight_raises by assumption. reflexivity.
Qed.

Lemma C1_witness :
  _process_broodminder_manufacturer_data dev0 (Some saved0) adv0 payload_W_20
  = Raised IndexError.
Proof.
  apply (C1_scale_payload_of_20_bytes_raises dev0 saved0 adv0 payload_W_20);
    reflexivity.
Defined.

(** C3, as stated, fails: a legacy payload of 9 bytes has bytes 7-8, yet the
    reading carries no temperature, because the whole field decoding sits
    behind [len(data) >= 15]. *)
Lemma C3_counterexample :
  in_tuple (byte_at payload_T_9 0) legacy_models = true /\
  8 < len payload_T_9 /\
  exists r,
    _process_broodminder_manufacturer_data dev0 (Some saved0) adv0 payload_T_9
    = Returned (Some r) /\
    temperature_c r = None /\ temperature_f r = None.
Proof.
  split; [reflexivity|]. split; [reflexivity|].
  eexists. split; [vm_compute; reflexivity|]. split; reflexivity.
Qed.

(** C3, amended.  For a legacy model (code 41, 42 or 43) and a payload of at
    least 15 bytes, every reading the decoder returns has
    [temperature_c = temp_raw / 65536 * 165 - 40] and
    [temperature_f = temperature_c * 9 / 5 + 32], [temp_raw] being bytes 7-8
    little-endian; with a saved device, and unless the payload is the 20-byte
    payload of the scale model 43, a reading is returned.  Raw temperature 0
    gives exactly -40. *)
Theorem C3_legacy_temperature (device : BLEDevice.t)
    (saved_device : option BroodminderDevice.t) (adv_data : AdvertisementData.t)
    (data : list byte) :
  in_tuple (byte_at data 0) legacy_models = true ->
  15 <= len data ->
  (forall r,
      _process_broodminder_manufacturer_data device saved_device adv_data data
      = Returned (Some r) ->
      temperature_c r = Some (legacy_temperature_c (u16_at data 7)) /\
      temperature_f r
      = Some (fahrenheit_of_c (legacy_temperature_c (u16_at data 7)))) /\
  (is_Some saved_device ->
   byte_at data 0 <> 43 \/ len data <> 20 ->
   exists r,
     _process_broodminder_manufacturer_data device saved_device adv_data data
     = Returned (Some r)) /\
  legacy_temperature_c 0 = (-40)%float.
Proof.
  intros Hm Hlen. split; [|split].
  - intros r H. apply process_temperature in H.
    rewrite (proj2 (Z.leb_le 15 (len data))), Hm in H by lia.
    injection H as -> ->. split; reflexivity.
  - intros Hs Hok. apply process_returns; [lia|assumption|].
    destruct Hok as [Hn|Hn]; [left|right; assumption].
    unfold legacy_models, scale_models, in_tuple in *. simpl in *.
    destruct (Z.eqb_spec (byte_at data 0) 41) as [->|]; [reflexivity|].
    destruct (Z.eqb_spec (byte_at data 0) 42) as [->|]; [reflexivity|].
    destruct (Z.eqb_spec (byte_at data 0) 43) as [|]; [contradiction|].
    simpl in Hm. discriminate.
  - reflexivity.
Qed.

Lemma C3_witness :
  exists r,
    _process_broodminder_manufacturer_data dev0 (Some saved0) adv0 payload_TH
    = Returned (Some r) /\
    temperature_c r = Some (-40)%float /\ temperature_f r = Some (-40)%float.
Proof.
  destruct (C3_legacy_temperature dev0 (Some saved0) adv0 payload_TH)
    as (Hfields & Hret & _); [reflexivity | unfold len; simpl; lia |].
  destruct Hret as [r Hr]; [eexists; reflexivity | left; vm_compute; discriminate |].
  exists r. split; [exact Hr|]. exact (Hfields r Hr).
Defined.

(** C4.  For a scale model and a payload longer than 19 bytes whose bytes
    19-20, read little-endian, are not the sentinel [0x7FFF], every reading
    the decoder returns has
    [total_weight_lbs = (total_weight_raw - 32767) / 100 * SCALE_FACTOR],
    whatever bytes 10-13 gave before.  A reading is returned whenever a saved
    device is passed and the payload does not stop at byte 19. *)
Theorem C4_total_weight_override (device : BLEDevice.t)
    (saved_device : option BroodminderDevice.t) (adv_data : AdvertisementData.t)
    (data : list byte) :
  in_tuple (byte_at data 0) scale_models = true ->
  19 < len data ->
  u16_at data 19 <> 0x7FFF ->
  (forall r,
      _process_broodminder_manufacturer_data device saved_device adv_data data
      = Returned (Some r) ->
      total_weight_lbs r
      = Some (lbs_of_raw (u16_at data 19) * SCALE_FACTOR)%float) /\
  (is_Some saved_device ->
   len data <> 20 ->
   exists r,
     _process_broodminder_manufacturer_data device saved_device adv_data data
     = Returned (Some r)).
Proof.
  intros Hm H19 Hraw. split.
  - intros r H. apply process_long_inv in H as (saved & -> & H); [|lia].
    destruct (Z.eq_dec (len data) 20) as [H20|H20].
    + rewrite parse_total_weight_raises in H by assumption. discriminate.
    + rewrite parse_total_weight_returns in H by exact H20.
      rewrite Hm, (proj2 (Z.ltb_lt 19 (len data))) in H by lia.
      apply Z.eqb_neq in Hraw. rewrite Hraw in H. simpl in H.
      injection H as <-. reflexivity.
  - intros Hs H20. apply process_returns; [lia | assumption | right; exact H20].
Qed.

Lemma C4_witness :
  exists r,
    _process_broodminder_manufacturer_data dev0 (Some saved0) adv0 payload_W_21
    = Returned (Some r) /\
    total_weight_lbs r = Some (0.98)%float.
Proof.
  destruct (C4_total_weight_override dev0 (Some saved0) adv0 payload_W_21)
    as (Htotal & Hret).
  - reflexivity.
  - unfold len; simpl; lia.
  - vm_compute; discriminate.
  - destruct Hret as [r Hr]; [eexists; reflexivity | unfold len; simpl; lia |].
    exists r. split; [exact Hr|]. exact (Htotal r Hr).
Defined.

(** C5, as stated, fails: a scale payload of 14 bytes has bytes 10-13, the
    left side at the sentinel and the right side a value, yet the reading has
    no right weight and no total, again because of the [len(data) >= 15] gate. *)
Lemma C5_counterexample :
  in_tuple (byte_at payload_W_14 0) scale_models = true /\
  u16_at payload_W_14 10 = 0x7FFF /\
  u16_at payload_W_14 12 <> 0x7FFF /\
  exists r,
    _process_broodminder_manufacturer_data dev0 (Some saved0) adv0 payload_W_14
    = Returned (Some r) /\
    weight_right_lbs r = None /\ total_weight_lbs r = None.
Proof.
  split; [reflexivity|]. split; [reflexivity|]. split; [vm_compute; discriminate|].
  eexists. split; [vm_compute; reflexivity|]. split; reflexivity.
Qed.

(** C5, amended.  For a scale model and a payload of at least 15 bytes whose
    left raw weight (bytes 10-11) is the sentinel and whose right raw weight
    (bytes 12-13) is not: when the override block is reached the left weight
    is absent, the right weight is [(raw - 32767) / 100] and the total is the
    right weight times [SCALE_FACTOR]; every reading the decoder returns has
    that left and right weight; and unless the payload has 20 bytes, a saved
    device gives a reading. *)
Theorem C5_left_sentinel_right_only (device : BLEDevice.t)
    (saved_device : option BroodminderDevice.t) (adv_data : AdvertisementData.t)
    (data : list byte) :
  in_tuple (byte_at data 0) scale_models = true ->
  15 <= len data ->
  u16_at data 10 = 0x7FFF ->
  u16_at data 12 <> 0x7FFF ->
  (forall result,
      weight_left_lbs result = None ->
      exists r0,
        parse_before_override (byte_at data 0) data result = Returned r0 /\
        weight_left_lbs r0 = None /\
        weight_right_lbs r0 = Some (lbs_of_raw (u16_at data 12)) /\
        total_weight_lbs r0
        = Some (lbs_of_raw (u16_at data 12) * SCALE_FACTOR)%float) /\
  (forall r,
      _process_broodminder_manufacturer_data device saved_device adv_data data
      = Returned (Some r) ->
      weight_left_lbs r = None /\
      weight_right_lbs r = Some (lbs_of_raw (u16_at data 12)) /\
      (len data <= 19 \/ u16_at data 19 = 0x7FFF ->
       total_weight_lbs r
       = Some (lbs_of_raw (u16_at data 12) * SCALE_FACTOR)%float)) /\
  (is_Some saved_device ->
   len data <> 20 ->
   exists r,
     _process_broodminder_manufacturer_data device saved_device adv_data data
     = Returned (Some r)).
Proof.
  intros Hm Hlen H10 H12.
  assert (Hside10 : side_lbs (u16_at data 10) = None)
    by (unfold side_lbs; rewrite H10; reflexivity).
  assert (Hside12 : side_lbs (u16_at data 12) = Some (lbs_of_raw (u16_at data 12)))
    by (unfold side_lbs; rewrite (proj2 (Z.eqb_neq _ _) H12); reflexivity).
  split; [|split].
  - intros result Hl. exists (before_override (byte_at data 0) data result).
    split; [apply parse_before_override_returns; lia|].
    rewrite before_override_weight_left, before_override_weight_right.
    rewrite Hm, Hside10, Hside12.
    split; [exact Hl|]. split; [reflexivity|].
    apply before_override_total_right_only; assumption.
  - intros r H. apply process_long_inv in H as (saved & -> & H); [|lia].
    pose proof (parse_total_weight_keeps _ _ _ _ H) as (_ & _ & -> & -> & _).
    rewrite before_override_weight_left, before_override_weight_right.
    rewrite Hm, Hside10, Hside12.
    split; [reflexivity|]. split; [reflexivity|].
    intros Hno.
    assert (Hr : r = before_override (byte_at data 0) data
                       (first_result device saved adv_data data)).
    { destruct (Z.eq_dec (len data) 20) as [H20|H20].
      - rewrite parse_total_weight_raises in H by assumption. discriminate.
      - rewrite parse_total_weight_returns in H by assumption.
        destruct Hno as [Hshort|Hsent].
        + rewrite (proj2 (Z.ltb_ge 19 (len data))), andb_false_r in H by lia.
          injection H as <-. reflexivity.
        + rewrite Hsent, andb_false_r in H. injection H as <-. reflexivity. }
    rewrite Hr. apply before_override_total_right_only; try assumption.
    reflexivity.
  - intros Hs Hn. apply process_returns; [lia | assumption | right; assumption].
Qed.

Lemma C5_witness :
  exists r,
    _process_broodminder_manufacturer_data dev0 (Some saved0) adv0 payload_W_15
    = Returned (Some r) /\
    weight_left_lbs r = None /\
    weight_right_lbs r = Some (0.33)%float /\
    total_weight_lbs r = Some (0.66)%float.
Proof.
  destruct (C5_left_sentinel_right_only dev0 (Some saved0) adv0 payload_W_15)
    as (_ & Hfields & Hret).
  - reflexivity.
  - unfold len; simpl; lia.
  - reflexivity.
  - vm_compute; discriminate.
  - destruct Hret as [r Hr]; [eexists; reflexivity | unfold len; simpl; lia |].
    exists r. split; [exact Hr|].
    destruct (Hfields r Hr) as (Hl & Hrt & Ht).
    split; [exact Hl|]. split; [exact Hrt|].
    apply Ht. left. unfold len; simpl; lia.
Defined.

Lemma current_not_legacy (model_number : Z) :
  47 <= model_number -> in_tuple model_number legacy_models = false.
Proof.
  intros H. unfold in_tuple, legacy_models. simpl.
  rewrite !(proj2 (Z.eqb_neq model_number _)) by lia. reflexivity.
Qed.

(** C6, as stated, fails on payloads that hold bytes 7-8 but fewer than 15
    bytes: a 9-byte payload of model 52 with raw temperature 5001 decodes to a
    reading without temperature. *)
Lemma C6_counterexample :
  47 <= byte_at payload_SubHub_9 0 /\
  8 < len payload_SubHub_9 /\
  u16_at payload_SubHub_9 7 = 5001 /\
  exists r,
    _process_broodminder_manufacturer_data dev0 (Some saved0) adv0 payload_SubHub_9
    = Returned (Some r) /\
    temperature_c r = None /\ temperature_f r = None.
Proof.
  split; [vm_compute; discriminate|]. split; [reflexivity|]. split; [reflexivity|].
  eexists. split; [vm_compute; reflexivity|]. split; reflexivity.
Qed.

(** C6, amended.  For a model code of 47 or more and a payload of at least 15
    bytes, every reading the decoder returns has its temperature fields set
    exactly when [temp_raw] (bytes 7-8 little-endian) exceeds 5000, to
    [temperature_c = (temp_raw - 5000) / 100] and
    [temperature_f = temperature_c * 9 / 5 + 32]; at 5000 and below both
    fields are absent.  With a saved device, and unless the payload is a
    20-byte payload of a scale model, a reading is returned.  Raw 5001 gives
    0.01. *)
Theorem C6_current_temperature (device : BLEDevice.t)
    (saved_device : option BroodminderDevice.t) (adv_data : AdvertisementData.t)
    (data : list byte) :
  47 <= byte_at data 0 ->
  15 <= len data ->
  (forall r,
      _process_broodminder_manufacturer_data device saved_device adv_data data
      = Returned (Some r) ->
      (5000 < u16_at data 7 ->
       temperature_c r = Some (current_temperature_c (u16_at data 7)) /\
       temperature_f r
       = Some (fahrenheit_of_c (current_temperature_c (u16_at data 7)))) /\
      (u16_at data 7 <= 5000 ->
       temperature_c r = None /\ temperature_f r = None)) /\
  (is_Some saved_device ->
   in_tuple (byte_at data 0) scale_models = false \/ len data <> 20 ->
   exists r,
     _process_broodminder_manufacturer_data device saved_device adv_data data
     = Returned (Some r)) /\
  current_temperature_c 5001 = (0.01)%float.
Proof.
  intros Hm Hlen. split; [|split].
  - intros r H. apply process_temperature in H.
    rewrite (proj2 (Z.leb_le 15 (len data))), current_not_legacy in H by lia.
    rewrite (proj2 (Z.leb_le 47 (byte_at data 0))) in H by lia. simpl in H.
    split; intros Hraw.
    + rewrite (proj2 (Z.ltb_lt 5000 (u16_at data 7))) in H by lia.
      injection H as -> ->. split; reflexivity.
    + rewrite (proj2 (Z.ltb_ge 5000 (u16_at data 7))) in H by lia.
      injection H as -> ->. split; reflexivity.
  - intros Hs Hok. apply process_returns; [lia | assumption | assumption].
  - reflexivity.
Qed.

Lemma C6_witness :
  (exists r,
      _process_broodminder_manufacturer_data dev0 (Some saved0) adv0 payload_SubHub_5001
      = Returned (Some r) /\
      temperature_c r = Some (0.01)%float) /\
  (exists r,
      _process_broodminder_manufacturer_data dev0 (Some saved0) adv0 payload_SubHub_5000
      = Returned (Some r) /\
      temperature_c r = None /\ temperature_f r = None).
Proof.
  split.
  - destruct (C6_current_temperature dev0 (Some saved0) adv0 payload_SubHub_5001)
      as (Hfields & Hret & _); [vm_compute; discriminate | unfold len; simpl; lia |].
    destruct Hret as [r Hr]; [eexists; reflexivity | left; reflexivity |].
    exists r. split; [exact Hr|].
    destruct (Hfields r Hr) as [Hhot _].
    destruct Hhot as [Hc _]; [vm_compute; reflexivity | exact Hc].
  - destruct (C6_current_temperature dev0 (Some saved0) adv0 payload_SubHub_5000)
      as (Hfields & Hret & _); [vm_compute; discriminate | unfold len; simpl; lia |].
    destruct Hret as [r Hr]; [eexists; reflexivity | left; reflexivity |].
    exists r. split; [exact Hr|].
    destruct (Hfields r Hr) as [_ Hcold].
    apply Hcold. vm_compute; discriminate.
Defined.

(** The name of every reading the decoder returns: the advertised local
    name when that is a non-empty string, the saved device's name otherwise. *)
Lemma process_name (device : BLEDevice.t) (saved_device : option BroodminderDevice.t)
    (adv_data : AdvertisementData.t) (data : list byte) (r : t) :
  _process_broodminder_manufacturer_data device saved_device adv_data data
  = Returned (Some r) ->
  exists saved,
    saved_device = Some saved /\
    name r = resolved_name adv_data saved /\
    friendly_name r = BroodminderDevice.friendly_name saved.
Proof.
  intros H. destruct (Z.lt_ge_cases (len data) 15) as [Hs|Hl].
  - apply process_short_inv in H as (saved & -> & ->); [|lia].
    exists saved. repeat split.
  - apply process_long_inv in H as (saved & -> & H); [|lia].
    apply parse_total_weight_keeps in H as (_ & _ & _ & _ & -> & ->).
    destruct (before_override_name (byte_at data 0) data
                (first_result device saved adv_data data)) as [-> ->].
    exists saved. repeat split.
Qed.

(** C7, as stated, fails where the advertised name is the empty string and
    the address has no saved record: the callback then passes a fresh record
    that carries the advertised name, and the reading's name is that empty
    string, not absent. *)
Lemma C7_counterexample :
  (∅ : gmap string BroodminderDevice.t) !! BLEDevice.address dev0 = None /\
  AdvertisementData.local_name adv_empty_name = Some "" /\
  exists r,
    _process_broodminder_manufacturer_data dev0
      (Some (callback_saved_device ∅ dev0 adv_empty_name)) adv_empty_name payload_3
    = Returned (Some r) /\
    name r = Some "" /\ name r <> None.
Proof.
  split; [reflexivity|]. split; [reflexivity|].
  eexists. split; [vm_compute; reflexivity|]. split; [reflexivity | discriminate].
Qed.

(** C7, amended.  The name of every reading the decoder returns is the
    advertised local name when that is a non-empty string, and otherwise the
    name of the device record passed to the decoder.  For an address without
    a saved record the callback passes a fresh record carrying the advertised
    name, so the reading's name is then the advertised name as it is: absent
    when that is absent, the empty string when that is empty.  With a device
    record, a reading is returned for every payload of three bytes or more
    that is not the 20-byte payload of a scale model. *)
Theorem C7_name_resolution (device : BLEDevice.t) (adv_data : AdvertisementData.t)
    (data : list byte) :
  (forall saved_device r,
      _process_broodminder_manufacturer_data device saved_device adv_data data
      = Returned (Some r) ->
      exists saved,
        saved_device = Some saved /\
        name r = if truthy (AdvertisementData.local_name adv_data)
                 then AdvertisementData.local_name adv_data
                 else BroodminderDevice.name saved) /\
  (forall saved_devices r,
      saved_devices !! BLEDevice.address device = None ->
      _process_broodminder_manufacturer_data device
        (Some (callback_saved_device saved_devices device adv_data)) adv_data data
      = Returned (Some r) ->
      name r = AdvertisementData.local_name adv_data) /\
  (forall saved,
      3 <= len data ->
      in_tuple (byte_at data 0) scale_models = false \/ len data <> 20 ->
      exists r,
        _process_broodminder_manufacturer_data device (Some saved) adv_data data
        = Returned (Some r)).
Proof.
  split; [|split].
  - intros saved_device r H.
    apply process_name in H as (saved & -> & Hn & _).
    exists saved. split; [reflexivity | exact Hn].
  - intros saved_devices r Hnew H.
    apply process_name in H as (saved & [= <-] & Hn & _).
    rewrite Hn. unfold resolved_name, callback_saved_device. rewrite Hnew. simpl.
    destruct (truthy (AdvertisementData.local_name adv_data)); reflexivity.
  - intros saved Hlen Hok.
    apply process_returns; [exact Hlen | eexists; reflexivity | exact Hok].
Qed.

Lemma C7_witness :
  exists r,
    _process_broodminder_manufacturer_data dev0
      (Some (callback_saved_device ∅ dev0 adv0)) adv0 payload_3
    = Returned (Some r) /\
    name r = None.
Proof.
  destruct (C7_name_resolution dev0 adv0 payload_3) as (_ & Hnew & Hret).
  destruct (Hret (callback_saved_device ∅ dev0 adv0)) as [r Hr];
    [unfold len; simpl; lia | left; reflexivity |].
  exists r. split; [exact Hr|].
  exact (Hnew ∅ r eq_refl Hr).
Defined.

(** C10.  In every reading the decoder returns, [temperature_c] is present
    if and only if [temperature_f] is: either both are absent, or both come
    from the same raw value of bytes 7-8, by the legacy or by the current
    formula. *)
Theorem C10_temperature_fields_together (device : BLEDevice.t)
    (saved_device : option BroodminderDevice.t) (adv_data : AdvertisementData.t)
    (data : list byte) (r : t) :
  _process_broodminder_manufacturer_data device saved_device adv_data data
  = Returned (Some r) ->
  (is_Some (temperature_c r) <-> is_Some (temperature_f r)) /\
  ((temperature_c r = None /\ temperature_f r = None) \/
   (temperature_c r = Some (legacy_temperature_c (u16_at data 7)) /\
    temperature_f r = Some (legacy_temperature_f (u16_at data 7))) \/
   (temperature_c r = Some (current_temperature_c (u16_at data 7)) /\
    temperature_f r
    = Some (fahrenheit_of_c (current_temperature_c (u16_at data 7))))).
Proof.
  intros H. apply process_temperature in H.
  assert (Hcases :
    (temperature_c r = None /\ temperature_f r = None) \/
    (temperature_c r = Some (legacy_temperature_c (u16_at data 7)) /\
     temperature_f r = Some (legacy_temperature_f (u16_at data 7))) \/
    (temperature_c r = Some (current_temperature_c (u16_at data 7)) /\
     temperature_f r
     = Some (fahrenheit_of_c (current_temperature_c (u16_at data 7))))).
  { destruct (15 <=? len data);
      [destruct (in_tuple (byte_at data 0) legacy_models);
       [|destruct ((47 <=? byte_at data 0) && (5000 <? u16_at data 7))]|];
      injection H as -> ->; auto. }
  split; [|exact Hcases].
  destruct Hcases as [[-> ->]|[[-> ->]|[-> ->]]];
    split; intros [x Hx]; try discriminate; eexists; reflexivity.
Qed.

Lemma C10_witness :
  exists r,
    _process_broodminder_manufacturer_data dev0 (Some saved0) adv0 payload_SubHub_5001
    = Returned (Some r) /\
    (is_Some (temperature_c r) <-> is_Some (temperature_f r)).
Proof.
  assert (H : exists r,
             _process_broodminder_manufacturer_data dev0 (Some saved0) adv0
               payload_SubHub_5001 = Returned (Some r))
    by (eexists; vm_compute; reflexivity).
  destruct H as [r Hr]. exists r. split; [exact Hr|].
  exact (proj1 (C10_temperature_fields_together dev0 (Some saved0) adv0
                  payload_SubHub_5001 r Hr)).
Defined.

(** ** Session aggregation *)

Lemma data_eq_address (a b : t) : address a <> address b -> data_eq a b = false.
Proof.
  intros H. unfold data_eq. rewrite (proj2 (String.eqb_neq _ _) H). reflexivity.
Qed.

(** The loop stops at the first entry of the address; the entries before it
    have other addresses. *)
Lemma find_existing_Some (addr : string) (devices_found : list t) (i0 i : nat)
    (existing : t) :
  find_existing addr devices_found i0 = Some (i, existing) ->
  exists pre post,
    devices_found = (pre ++ existing :: post)%list /\
    i = (i0 + length pre)%nat /\
    address existing = addr /\
    Forall (fun y => address y <> addr) pre.
Proof.
  revert i0. induction devices_found as [|x l IH]; intros i0 H; simpl in H.
  - discriminate.
  - destruct (String.eqb_spec (address x) addr) as [Heq|Hne].
    + injection H as <- <-. exists [], l. simpl. repeat split; auto with lia.
    + apply IH in H as (pre & post & -> & -> & Ha & Hpre).
      exists (x :: pre), post. simpl. repeat split; auto with lia.
Qed.

Lemma find_existing_None (addr : string) (devices_found : list t) (i0 : nat) :
  find_existing addr devices_found i0 = None ->
  Forall (fun y => address y <> addr) devices_found.
Proof.
  revert i0. induction devices_found as [|x l IH]; intros i0 H; simpl in H.
  - constructor.
  - destruct (String.eqb_spec (address x) addr) as [Heq|Hne]; [discriminate|].
    constructor; eauto.
Qed.

(** [remove] takes out the object found by the loop and no other. *)
Lemma list_remove_found (existing : t) (pre post : list t) :
  Forall (fun y => address y <> address existing) pre ->
  list_remove existing (length pre) (pre ++ existing :: post)
  = Returned (pre ++ post)%list.
Proof.
  induction 1 as [|y pre Hy Hpre IH]; simpl.
  - reflexivity.
  - rewrite (data_eq_address y existing Hy). simpl. rewrite IH. reflexivity.
Qed.

Lemma filter_all_other (addr : string) (l : list t) :
  Forall (fun y => address y <> addr) l ->
  filter (fun y => address y <> addr) l = l.
Proof.
  induction 1 as [|y l Hy Hl IH]; [reflexivity|].
  rewrite filter_cons_True by exact Hy. rewrite IH. reflexivity.
Qed.

(** One ingestion: the entry of the same address, if any, goes and the new
    reading is appended. *)
Lemma ingest_returns (devices_found : list t) (r : t) :
  NoDup (address <$> devices_found) ->
  ingest devices_found r
  = Returned (filter (fun y => address y <> address r) devices_found ++ [r])%list.
Proof.
  intros Hnd. unfold ingest.
  destruct (find_existing (address r) devices_found 0) as [[i existing]|] eqn:Hfind.
  - apply find_existing_Some in Hfind as (pre & post & -> & -> & Ha & Hpre).
    simpl. rewrite <- Ha in Hpre. rewrite list_remove_found by exact Hpre.
    rewrite Ha in Hpre. simpl.
    rewrite fmap_app, fmap_cons in Hnd.
    apply NoDup_app in Hnd as (_ & _ & Hpost). apply NoDup_cons in Hpost as [Hpost _].
    rewrite filter_app, filter_cons_False by (intros Hn; apply Hn; exact Ha).
    rewrite filter_all_other by exact Hpre.
    rewrite filter_all_other; [reflexivity|].
    apply Forall_forall. intros y Hy Heq. apply Hpost.
    rewrite Ha, <- Heq. apply list_elem_of_fmap_2. exact Hy.
  - apply find_existing_None in Hfind. simpl.
    rewrite filter_all_other by exact Hfind. reflexivity.
Qed.

Lemma NoDup_filter_address (P : t -> Prop) `{!forall y, Decision (P y)} (l : list t) :
  NoDup (address <$> l) -> NoDup (address <$> filter P l).
Proof.
  induction l as [|y l IH]; [intros; constructor|].
  rewrite fmap_cons, NoDup_cons. intros [Hy Hl].
  destruct (decide (P y)).
  - rewrite filter_cons_True, fmap_cons, NoDup_cons by assumption.
    split; [|auto]. intros Hin. apply Hy.
    apply list_elem_of_fmap in Hin as (z & -> & Hz).
    apply list_elem_of_filter in Hz as [_ Hz]. apply list_elem_of_fmap_2. exact Hz.
  - rewrite filter_cons_False by assumption. auto.
Qed.

Lemma NoDup_after_ingest (l : list t) (r : t) :
  NoDup (address <$> l) ->
  NoDup (address <$> (filter (fun y => address y <> address r) l ++ [r])%list).
Proof.
  intros Hnd. rewrite fmap_app. apply NoDup_app. split; [|split].
  - apply NoDup_filter_address. exact Hnd.
  - intros a Ha Hr. simpl in Hr. apply list_elem_of_singleton in Hr as ->.
    apply list_elem_of_fmap in Ha as (z & Hz & Hin).
    apply list_elem_of_filter in Hin as [Hne _]. congruence.
  - simpl. apply NoDup_singleton.
Qed.

Lemma keep_last_snoc (readings : list t) (r : t) :
  keep_last (readings ++ [r])
  = (filter (fun y => address y <> address r) (keep_last readings) ++ [r])%list.
Proof.
  induction readings as [|x l IH]; [reflexivity|].
  simpl. rewrite fmap_app. simpl.
  destruct (decide (address x ∈ address <$> l)) as [Hin|Hout].
  - rewrite !bool_decide_eq_true_2; [exact IH | exact Hin |].
    apply elem_of_app. left. exact Hin.
  - rewrite (bool_decide_eq_false_2 _ Hout).
    destruct (decide (address x = address r)) as [Heq|Hne].
    + rewrite bool_decide_eq_true_2
        by (apply elem_of_app; right; rewrite Heq; apply list_elem_of_singleton;
            reflexivity).
      rewrite filter_cons_False by (intros Hn; apply Hn; exact Heq). exact IH.
    + rewrite bool_decide_eq_false_2.
      * rewrite filter_cons_True by exact Hne. rewrite IH. reflexivity.
      * intros Hin. apply elem_of_app in Hin as [Hin|Hin]; [exact (Hout Hin)|].
        apply list_elem_of_singleton in Hin. exact (Hne Hin).
Qed.

(** A session that starts from an entry list [keep_last seen]. *)
Lemma ingest_all_from (seen readings : list t) :
  ingest_all (keep_last seen) readings = Returned (keep_last (seen ++ readings)).
Proof.
  revert seen. induction readings as [|r l IH]; intros seen; simpl.
  - rewrite app_nil_r. reflexivity.
  - rewrite ingest_returns.
    + simpl. rewrite <- keep_last_snoc. rewrite IH.
      rewrite <- app_assoc. reflexivity.
    + clear. induction seen as [|x s IHs]; simpl; [constructor|].
      destruct (decide (address x ∈ address <$> s)) as [Hin|Hout].
      * rewrite bool_decide_eq_true_2 by exact Hin. exact IHs.
      * rewrite bool_decide_eq_false_2 by exact Hout.
        rewrite fmap_cons. apply NoDup_cons. split; [|exact IHs].
        intros Hin. apply Hout. clear -Hin.
        induction s as [|y s IH]; simpl in *; [exact Hin|].
        destruct (bool_decide (address y ∈ address <$> s)).
        -- apply elem_of_cons. right. auto.
        -- rewrite fmap_cons in Hin. apply elem_of_cons in Hin as [->|Hin].
           ++ apply elem_of_cons. left. reflexivity.
           ++ apply elem_of_cons. right. auto.
Qed.

Lemma ingest_all_session (readings : list t) :
  ingest_all [] readings = Returned (keep_last readings).
Proof. exact (ingest_all_from [] readings). Qed.

Lemma keep_last_addresses (readings : list t) (a : string) :
  a ∈ address <$> keep_last readings <-> a ∈ address <$> readings.
Proof.
  induction readings as [|x l IH]; simpl; [reflexivity|].
  rewrite elem_of_cons.
  destruct (decide (address x ∈ address <$> l)) as [Hin|Hout].
  - rewrite bool_decide_eq_true_2 by exact Hin. rewrite IH.
    split; [auto|]. intros [->|H]; assumption.
  - rewrite bool_decide_eq_false_2 by exact Hout.
    rewrite fmap_cons, elem_of_cons, IH. reflexivity.
Qed.

Lemma keep_last_NoDup (readings : list t) : NoDup (address <$> keep_last readings).
Proof.
  induction readings as [|x l IH]; simpl; [constructor|].
  destruct (decide (address x ∈ address <$> l)) as [Hin|Hout].
  - rewrite bool_decide_eq_true_2 by exact Hin. exact IH.
  - rewrite bool_decide_eq_false_2 by exact Hout.
    rewrite fmap_cons. apply NoDup_cons. split; [|exact IH].
    rewrite keep_last_addresses. exact Hout.
Qed.

Lemma keep_last_is_last (readings : list t) (r : t) :
  r ∈ keep_last readings ->
  exists pre post,
    readings = (pre ++ r :: post)%list /\ address r ∉ address <$> post.
Proof.
  induction readings as [|x l IH]; simpl; [intros H; inversion H|].
  destruct (decide (address x ∈ address <$> l)) as [Hin|Hout].
  - rewrite bool_decide_eq_true_2 by exact Hin. intros H.
    destruct (IH H) as (pre & post & -> & Hlast).
    exists (x :: pre), post. split; [reflexivity | exact Hlast].
  - rewrite bool_decide_eq_false_2 by exact Hout.
    intros H. apply elem_of_cons in H as [->|H].
    + exists [], l. split; [reflexivity | exact Hout].
    + destruct (IH H) as (pre & post & -> & Hlast).
      exists (x :: pre), post. split; [reflexivity | exact Hlast].
Qed.

Lemma keep_last_sublist (readings : list t) : sublist (keep_last readings) readings.
Proof.
  induction readings as [|x l IH]; simpl; [constructor|].
  destruct (bool_decide (address x ∈ address <$> l)).
  - apply sublist_cons. exact IH.
  - apply sublist_skip. exact IH.
Qed.

(** C2, as stated, fails: a replacement does not keep the index of first
    sighting.  Hive A, hive B, hive A again leaves B first and A second,
    whereas the order by first sighting has A first. *)
Lemma C2_counterexample :
  ingest_all [] [reading_A1; reading_B1; reading_A2]
  = Returned [reading_B1; reading_A2] /\
  first_sighting_snapshot [reading_A1; reading_B1; reading_A2]
  = [reading_A2; reading_B1] /\
  ingest_all [] [reading_A1; reading_B1; reading_A2]
  <> Returned (first_sighting_snapshot [reading_A1; reading_B1; reading_A2]).
Proof.
  split; [vm_compute; reflexivity|]. split; [vm_compute; reflexivity|].
  vm_compute. discriminate.
Qed.

(** C2, amended.  For every sequence of ingested readings the snapshot
    ([devices_found] after the session) is [keep_last readings]: exactly one
    entry per distinct address, that entry being the last reading ingested
    for the address, and the entries stand in the order in which those last
    readings were ingested (a replacement moves the address to the end).
    Ingesting two readings of one address one after the other leaves one
    entry for it, the second reading, at the last index, where the first one
    stood. *)
Theorem C2_snapshot_last_sighting (readings : list t) :
  ingest_all [] readings = Returned (keep_last readings) /\
  NoDup (address <$> keep_last readings) /\
  (forall a, a ∈ address <$> keep_last readings <-> a ∈ address <$> readings) /\
  (forall r, r ∈ keep_last readings ->
             exists pre post,
               readings = (pre ++ r :: post)%list /\ address r ∉ address <$> post) /\
  sublist (keep_last readings) readings /\
  (forall r1 r2,
      address r1 = address r2 ->
      exists others,
        Forall (fun y => address y <> address r2) others /\
        ingest_all [] (readings ++ [r1]) = Returned (others ++ [r1])%list /\
        ingest_all [] (readings ++ [r1; r2]) = Returned (others ++ [r2])%list).
Proof.
  split; [apply ingest_all_session|].
  split; [apply keep_last_NoDup|].
  split; [apply keep_last_addresses|].
  split; [apply keep_last_is_last|].
  split; [apply keep_last_sublist|].
  intros r1 r2 Heq.
  exists (filter (fun y => address y <> address r1) (keep_last readings)).
  split; [|split].
  - apply Forall_forall. intros y Hy.
    apply list_elem_of_filter in Hy as [Hne _]. congruence.
  - rewrite ingest_all_session, keep_last_snoc. reflexivity.
  - rewrite ingest_all_session.
    change [r1; r2] with ([r1] ++ [r2])%list. rewrite app_assoc.
    rewrite keep_last_snoc, keep_last_snoc.
    rewrite filter_app, filter_cons_False by (intros Hn; apply Hn; exact Heq).
    rewrite filter_nil, app_nil_r, <- Heq.
    rewrite list_filter_filter.
    do 2 f_equal. apply list_filter_iff. intros y. tauto.
Qed.

Lemma C2_witness :
  exists others,
    Forall (fun y => address y <> address reading_A2) others /\
    ingest_all [] ([reading_A1; reading_B1] ++ [reading_A1])
    = Returned (others ++ [reading_A1])%list /\
    ingest_all [] ([reading_A1; reading_B1] ++ [reading_A1; reading_A2])
    = Returned (others ++ [reading_A2])%list.
Proof.
  destruct (C2_snapshot_last_sighting [reading_A1; reading_B1])
    as (_ & _ & _ & _ & _ & Htwice).
  apply (Htwice reading_A1 reading_A2). reflexivity.
Defined.

(** ** The saved-device registry *)

Lemma update_saved_other (saved_devices : gmap string BroodminderDevice.t)
    (device : t) (a : string) :
  address device <> a ->
  update_saved saved_devices device !! a = saved_devices !! a.
Proof.
  intros Hne. unfold update_saved.
  destruct (saved_devices !! address device) eqn:Hold, (name device);
    rewrite ?lookup_alter_ne, ?lookup_insert_ne by exact Hne; reflexivity.
Qed.

Lemma update_saved_same (saved_devices : gmap string BroodminderDevice.t) (device : t) :
  update_saved saved_devices device !! address device
  = Some (let d := default (BroodminderDevice.mk (address device) None None)
                           (saved_devices !! address device) in
          match name device with
          | Some n => set_name (Some n) d
          | None => d
          end).
Proof.
  unfold update_saved.
  destruct (saved_devices !! address device) eqn:Hold, (name device); simpl;
    rewrite ?lookup_alter_eq, ?lookup_insert_eq, ?Hold; reflexivity.
Qed.

Lemma last_name_cons (a : string) (r : t) (found_devices : list t)
    (init : option string) :
  last_name a (r :: found_devices) init
  = last_name a found_devices
      (if bool_decide (address r = a)
       then match name r with Some n => Some n | None => init end
       else init).
Proof. reflexivity. Qed.

Lemma save_devices_cons (saved_devices : gmap string BroodminderDevice.t) (r : t)
    (found_devices : list t) :
  save_devices saved_devices (r :: found_devices)
  = save_devices (update_saved saved_devices r) found_devices.
Proof. reflexivity. Qed.

(** The entry of address [a] after [save_devices], from the entry before. *)
Lemma save_devices_lookup (saved_devices : gmap string BroodminderDevice.t)
    (found_devices : list t) (a : string) :
  save_devices saved_devices found_devices !! a
  = match saved_devices !! a with
    | Some d0 =>
        Some (BroodminderDevice.mk (BroodminderDevice.address d0)
                (last_name a found_devices (BroodminderDevice.name d0))
                (BroodminderDevice.friendly_name d0))
    | None =>
        if bool_decide (a ∈ address <$> found_devices)
        then Some (BroodminderDevice.mk a (last_name a found_devices None) None)
        else None
    end.
Proof.
  revert saved_devices. induction found_devices as [|r l IH]; intros saved_devices.
  - simpl. destruct (saved_devices !! a) as [[]|]; reflexivity.
  - rewrite save_devices_cons, IH.
    destruct (decide (address r = a)) as [Heq|Hne].
    + subst a. rewrite update_saved_same.
      rewrite (bool_decide_eq_true_2 (address r ∈ address <$> r :: l))
        by (rewrite fmap_cons; apply elem_of_cons; left; reflexivity).
      destruct (saved_devices !! address r) as [d0|], (name r) eqn:Hn;
        cbv beta iota zeta;
        rewrite last_name_cons, bool_decide_eq_true_2, Hn by reflexivity;
        reflexivity.
    + rewrite update_saved_other by exact Hne.
      destruct (saved_devices !! a).
      { rewrite last_name_cons, (bool_decide_eq_false_2 _ Hne). reflexivity. }
      rewrite last_name_cons, (bool_decide_eq_false_2 _ Hne).
      destruct (decide (a ∈ address <$> l)) as [Hin|Hout].
      * rewrite !bool_decide_eq_true_2; [reflexivity| |exact Hin].
        rewrite fmap_cons. apply elem_of_cons. right. exact Hin.
      * rewrite !bool_decide_eq_false_2; [reflexivity| |exact Hout].
        rewrite fmap_cons. intros Hin. apply elem_of_cons in Hin as [Hin|Hin];
          [exact (Hne (eq_sym Hin)) | exact (Hout Hin)].
Qed.

Lemma last_name_absent (a : string) (found_devices : list t) (init : option string) :
  (forall r, r ∈ found_devices -> address r = a -> name r = None) ->
  last_name a found_devices init = init.
Proof.
  revert init. induction found_devices as [|r l IH]; intros init H; [reflexivity|].
  rewrite last_name_cons. rewrite IH.
  - destruct (decide (address r = a)) as [Heq|Hne].
    + rewrite (bool_decide_eq_true_2 _ Heq).
      rewrite (H r) by (try apply elem_of_cons; auto). reflexivity.
    + rewrite (bool_decide_eq_false_2 _ Hne). reflexivity.
  - intros r' Hin. apply H. apply elem_of_cons. right. exact Hin.
Qed.

Lemma last_name_source (a : string) (found_devices : list t) (init : option string) :
  last_name a found_devices init = init \/
  exists r n,
    r ∈ found_devices /\ address r = a /\ name r = Some n /\
    last_name a found_devices init = Some n.
Proof.
  revert init. induction found_devices as [|r l IH]; intros init; [left; reflexivity|].
  rewrite last_name_cons.
  destruct (decide (address r = a)) as [Heq|Hne].
  - rewrite (bool_decide_eq_true_2 _ Heq).
    destruct (name r) as [n|] eqn:Hn.
    + destruct (IH (Some n)) as [Hsame|(r' & n' & Hin & Ha & Hn' & Hlast)].
      * right. exists r, n. rewrite Hsame.
        repeat split; auto. apply elem_of_cons. left. reflexivity.
      * right. exists r', n'. repeat split; auto. apply elem_of_cons. right. exact Hin.
    + destruct (IH init) as [Hsame|(r' & n' & Hin & Ha & Hn' & Hlast)].
      * left. exact Hsame.
      * right. exists r', n'. repeat split; auto. apply elem_of_cons. right. exact Hin.
  - rewrite (bool_decide_eq_false_2 _ Hne).
    destruct (IH init) as [Hsame|(r' & n' & Hin & Ha & Hn' & Hlast)].
    + left. exact Hsame.
    + right. exists r', n'. repeat split; auto. apply elem_of_cons. right. exact Hin.
Qed.

(** C9.  [save_devices] on any saved mapping and any list of readings: an
    address already saved keeps its record, [friendly_name] untouched, its
    [name] replaced by the last non-absent name among the readings of that
    address and kept when there is none; an address not yet saved gets a
    fresh record, [friendly_name] absent, exactly when a reading has that
    address; a name is never replaced by an absent one, and comes from a
    reading of that address whenever it changes. *)
Theorem C9_save_devices_reconciles (saved_devices : gmap string BroodminderDevice.t)
    (found_devices : list t) :
  (forall a d0,
      saved_devices !! a = Some d0 ->
      save_devices saved_devices found_devices !! a
      = Some (BroodminderDevice.mk (BroodminderDevice.address d0)
                (last_name a found_devices (BroodminderDevice.name d0))
                (BroodminderDevice.friendly_name d0))) /\
  (forall a,
      saved_devices !! a = None ->
      a ∈ address <$> found_devices ->
      save_devices saved_devices found_devices !! a
      = Some (BroodminderDevice.mk a (last_name a found_devices None) None)) /\
  (forall a,
      saved_devices !! a = None ->
      a ∉ address <$> found_devices ->
      save_devices saved_devices found_devices !! a = None) /\
  (forall a init,
      (forall r, r ∈ found_devices -> address r = a -> name r = None) ->
      last_name a found_devices init = init) /\
  (forall a init,
      last_name a found_devices init = init \/
      exists r n,
        r ∈ found_devices /\ address r = a /\ name r = Some n /\
        last_name a found_devices init = Some n).
Proof.
  split; [|split; [|split; [|split]]].
  - intros a d0 H. rewrite save_devices_lookup, H. reflexivity.
  - intros a H Hin. rewrite save_devices_lookup, H.
    rewrite (bool_decide_eq_true_2 _ Hin). reflexivity.
  - intros a H Hout. rewrite save_devices_lookup, H.
    rewrite (bool_decide_eq_false_2 _ Hout). reflexivity.
  - intros a init. apply last_name_absent.
  - intros a init. apply last_name_source.
Qed.

Lemma C9_witness :
  save_devices ∅ [reading_named "AA:BB" (Some "Hive1")] !! "AA:BB"
  = Some (BroodminderDevice.mk "AA:BB" (Some "Hive1") None) /\
  save_devices (save_devices ∅ [reading_named "AA:BB" (Some "Hive1")])
    [reading_named "AA:BB" None] !! "AA:BB"
  = Some (BroodminderDevice.mk "AA:BB" (Some "Hive1") None).
Proof.
  split.
  - destruct (C9_save_devices_reconciles ∅ [reading_named "AA:BB" (Some "Hive1")])
      as (_ & Hnew & _).
    apply (Hnew "AA:BB"); [reflexivity|]. apply elem_of_cons. left. reflexivity.
  - destruct (C9_save_devices_reconciles
                (save_devices ∅ [reading_named "AA:BB" (Some "Hive1")])
                [reading_named "AA:BB" None])
      as (Hold & _).
    apply (Hold "AA:BB" (BroodminderDevice.mk "AA:BB" (Some "Hive1") None)).
    vm_compute. reflexivity.
Defined.

(** *** Loading *)

Lemma construct_device_exn (device : json) (e : PyExn) :
  construct_device device = Raised e -> e = TypeError.
Proof.
  unfold construct_device. destruct device; try (intros [= <-]; reflexivity).
  destruct (forallb _ _); [|intros [= <-]; reflexivity].
  destruct (kwarg "address" items), (kwarg "name" items);
    intros H; try discriminate; injection H as <-; reflexivity.
Qed.

Lemma build_devices_exn (items : list (string * json))
    (acc : gmap string LoadedDevice.t) (e : PyExn) :
  build_devices items acc = Raised e -> e = TypeError.
Proof.
  revert acc. induction items as [|[addr device] items IH]; intros acc; simpl.
  - discriminate.
  - destruct (construct_device device) as [d|e'] eqn:Hd; simpl.
    + apply IH.
    + intros [= <-]. exact (construct_device_exn device e' Hd).
Qed.

(** What [load_saved_devices] does tolerate: a missing file, a file that is
    not JSON, and a JSON object whose values are not device records. *)
Lemma load_saved_devices_tolerated :
  load_saved_devices FileAbsent = Returned ∅ /\
  load_saved_devices (FilePresent (Raised JSONDecodeError)) = Returned ∅ /\
  (forall items,
      (exists m, build_devices items ∅ = Returned m /\
                 load_saved_devices (FilePresent (Returned (JObj items))) = Returned m) \/
      load_saved_devices (FilePresent (Returned (JObj items))) = Returned ∅).
Proof.
  split; [reflexivity|]. split; [reflexivity|].
  intros items. simpl. destruct (build_devices items ∅) as [m|e] eqn:Hb.
  - left. exists m. split; reflexivity.
  - right. apply build_devices_exn in Hb as ->. reflexivity.
Qed.

(** C8.  A malformed devices file is claimed to load as an empty mapping,
    whatever the corruption.  When the file holds valid JSON that is not an
    object (an array, a string, a number, [true], [null]), [data.items()]
    raises [AttributeError], which the [except (JSONDecodeError, TypeError)]
    clause does not catch: the load raises. *)
Theorem C8_non_object_file_raises (data : json) :
  (forall items, data <> JObj items) ->
  load_saved_devices (FilePresent (Returned data)) = Raised AttributeError.
Proof.
  intros H. destruct data; try reflexivity. exfalso. exact (H items eq_refl).
Qed.

Lemma C8_witness :
  load_saved_devices (FilePresent (Returned (JArr []))) = Raised AttributeError.
Proof.
  apply (C8_non_object_file_raises (JArr [])). intros items. discriminate.
Defined.

(** ** The decoder behind the scanner callback *)

(** The callback always hands the decoder a device record, a fresh one for an
    address it has not saved; the 20-byte scale payload still ends the
    callback in [IndexError], whatever the output format and the console. *)
Example callback_scale_payload_of_20_bytes :
  forall console_print_found output_format show_raw,
    callback console_print_found output_format show_raw ∅ [] dev0
      (AdvertisementData.mk (Some "Hive1")
         [(BROODMINDER_MANUFACTURER_ID, payload_W_20)] (-60))
    = ([], Raised IndexError).
Proof. intros. reflexivity. Qed.

(** An address not yet saved that advertises the empty string as its name:
    the fresh record carries that empty string, and so does the reading. *)
Example callback_unknown_device_empty_name :
  forall console_print_found,
    name <$> fst (callback console_print_found TABLE false ∅ [] dev0 adv_empty_name)
    = [Some ""].
Proof. intros. reflexivity. Qed.

(** * Further properties of the decoder *)

(** The decoder answers [None] exactly for payloads shorter than three bytes. *)
Theorem process_None_iff (device : BLEDevice.t)
    (saved_device : option BroodminderDevice.t) (adv_data : AdvertisementData.t)
    (data : list byte) :
  _process_broodminder_manufacturer_data device saved_device adv_data data
  = Returned None
  <-> len data < 3.
Proof.
  split; [|apply process_short].
  intros H. destruct (Z.lt_ge_cases (len data) 3) as [Hs|Hl]; [exact Hs|].
  exfalso. destruct saved_device as [saved|].
  - rewrite process_saved_device in H by lia.
    destruct (parse_fields _ _ _); discriminate.
  - rewrite process_no_saved_device in H by lia. discriminate.
Qed.

Lemma process_scale_20 (device : BLEDevice.t) (saved : BroodminderDevice.t)
    (adv_data : AdvertisementData.t) (data : list byte) :
  in_tuple (byte_at data 0) scale_models = true ->
  len data = 20 ->
  _process_broodminder_manufacturer_data device (Some saved) adv_data data
  = Raised IndexError.
Proof.
  intros Hm H20. rewrite process_saved_device by lia.
  rewrite parse_fields_long by lia.
  rewrite parse_total_weight_raises by assumption. reflexivity.
Qed.

Lemma process_saved_raised_inv (device : BLEDevice.t) (saved : BroodminderDevice.t)
    (adv_data : AdvertisementData.t) (data : list byte) (e : PyExn) :
  _process_broodminder_manufacturer_data device (Some saved) adv_data data = Raised e ->
  e = IndexError /\ in_tuple (byte_at data 0) scale_models = true /\ len data = 20.
Proof.
  intros H. destruct (Z.lt_ge_cases (len data) 3) as [Hs|Hl].
  { rewrite process_short in H by lia. discriminate. }
  destruct (in_tuple (byte_at data 0) scale_models) eqn:Hm.
  - destruct (Z.eq_dec (len data) 20) as [H20|H20].
    + rewrite process_scale_20 in H by assumption. injection H as <-. auto.
    + exfalso.
      destruct (process_returns device (Some saved) adv_data data)
        as [r Hr]; [lia | eexists; reflexivity | right; exact H20 |].
      rewrite Hr in H. discriminate.
  - exfalso.
    destruct (process_returns device (Some saved) adv_data data)
      as [r Hr]; [lia | eexists; reflexivity | left; exact Hm |].
    rewrite Hr in H. discriminate.
Qed.

(** The decoder raises in two situations and no other: no saved device
    ([AttributeError]), and the 20-byte payload of a scale model
    ([IndexError]). *)
Theorem process_raises_iff (device : BLEDevice.t)
    (saved_device : option BroodminderDevice.t) (adv_data : AdvertisementData.t)
    (data : list byte) (e : PyExn) :
  _process_broodminder_manufacturer_data device saved_device adv_data data = Raised e
  <-> (3 <= len data /\ saved_device = None /\ e = AttributeError) \/
      (is_Some saved_device /\
       in_tuple (byte_at data 0) scale_models = true /\ len data = 20 /\
       e = IndexError).
Proof.
  split.
  - intros H. destruct saved_device as [saved|].
    + right. split; [eexists; reflexivity|].
      apply process_saved_raised_inv in H as (-> & Hm & H20). auto.
    + left. destruct (Z.lt_ge_cases (len data) 3) as [Hs|Hl].
      { rewrite process_short in H by lia. discriminate. }
      rewrite process_no_saved_device in H by lia.
      injection H as <-. auto.
  - intros [(Hl & -> & ->)|([saved ->] & Hm & H20 & ->)].
    + apply process_no_saved_device. exact Hl.
    + apply process_scale_20; assumption.
Qed.

(** The identity part of a reading. *)
Lemma before_override_header (model_number : Z) (data : list byte) (result : t) :
  let r := before_override model_number data result in
  address r = address result /\ rssi r = rssi result /\
  BroodminderData.model_number r = BroodminderData.model_number result /\
  model_name r = model_name result /\
  firmware_version r = firmware_version result /\
  raw_data r = raw_data result.
Proof. destruct result. block_fields; repeat split. Qed.

Lemma parse_total_weight_header (model_number : Z) (data : list byte) (result r : t) :
  parse_total_weight model_number data result = Returned r ->
  address r = address result /\ rssi r = rssi result /\
  BroodminderData.model_number r = BroodminderData.model_number result /\
  model_name r = model_name result /\
  firmware_version r = firmware_version result /\
  raw_data r = raw_data result /\
  battery r = battery result /\ elapsed_time r = elapsed_time result /\
  humidity r = humidity result.
Proof.
  intros H. apply parse_total_weight_frame in H. rewrite H. simpl. repeat split.
Qed.

Lemma process_header_fields (device : BLEDevice.t)
    (saved_device : option BroodminderDevice.t) (adv_data : AdvertisementData.t)
    (data : list byte) (r : t) :
  _process_broodminder_manufacturer_data device saved_device adv_data data
  = Returned (Some r) ->
  exists saved,
    saved_device = Some saved /\
    address r = address (first_result device saved adv_data data) /\
    rssi r = rssi (first_result device saved adv_data data) /\
    model_number r = model_number (first_result device saved adv_data data) /\
    model_name r = model_name (first_result device saved adv_data data) /\
    firmware_version r = firmware_version (first_result device saved adv_data data) /\
    raw_data r = raw_data (first_result device saved adv_data data).
Proof.
  intros H. destruct (Z.lt_ge_cases (len data) 15) as [Hs|Hl].
  - apply process_short_inv in H as (saved & -> & ->); [|lia].
    exists saved. repeat split.
  - apply process_long_inv in H as (saved & -> & H); [|lia].
    apply parse_total_weight_header in H as (-> & -> & -> & -> & -> & -> & _).
    destruct (before_override_header (byte_at data 0) data
                (first_result device saved adv_data data))
      as (-> & -> & -> & -> & -> & ->).
    exists saved. repeat split.
Qed.

(** Every reading the decoder returns carries the device address, the signal
    strength, the payload itself, byte 0 as model number, "major.minor" from
    bytes 2 and 1, and the model name of the table or "Unknown-<n>"; no later
    block touches them. *)
Theorem process_header (device : BLEDevice.t)
    (saved_device : option BroodminderDevice.t) (adv_data : AdvertisementData.t)
    (data : list byte) (r : t) :
  _process_broodminder_manufacturer_data device saved_device adv_data data
  = Returned (Some r) ->
  address r = BLEDevice.address device /\
  rssi r = AdvertisementData.rssi adv_data /\
  raw_data r = Some data /\
  model_number r = byte_at data 0 /\
  0 <= model_number r < 256 /\
  firmware_version r
  = str_of_int (byte_at data 2) ++ "." ++ str_of_int (byte_at data 1) /\
  model_name r
  = match MODEL_NAMES !! byte_at data 0 with
    | Some known => known
    | None => "Unknown-" ++ str_of_int (byte_at data 0)
    end.
Proof.
  intros H.
  apply process_header_fields in H as (saved & _ & Ha & Hr & Hm & Hn & Hf & Hd).
  simpl in *.
  split; [exact Ha|]. split; [exact Hr|]. split; [exact Hd|]. split; [exact Hm|].
  split; [rewrite Hm; apply byte_at_range|]. split; [exact Hf|].
  rewrite Hn. destruct (MODEL_NAMES !! byte_at data 0); reflexivity.
Qed.

Lemma process_header_witness :
  exists r,
    _process_broodminder_manufacturer_data dev0 (Some saved0) adv0 payload_TH
    = Returned (Some r) /\
    model_name r = "BroodMinder-TH" /\ firmware_version r = "1.3".
Proof.
  assert (H : exists r,
             _process_broodminder_manufacturer_data dev0 (Some saved0) adv0 payload_TH
             = Returned (Some r))
    by (eexists; vm_compute; reflexivity).
  destruct H as [r Hr]. exists r. split; [exact Hr|].
  destruct (process_header dev0 (Some saved0) adv0 payload_TH r Hr)
    as (_ & _ & _ & _ & _ & Hf & Hn).
  split; [exact Hn | exact Hf].
Defined.

(** A payload of 3 to 14 bytes gives the header and nothing else: every
    optional measurement is absent. *)
Theorem process_short_payload (device : BLEDevice.t)
    (saved_device : option BroodminderDevice.t) (adv_data : AdvertisementData.t)
    (data : list byte) (r : t) :
  len data < 15 ->
  _process_broodminder_manufacturer_data device saved_device adv_data data
  = Returned (Some r) ->
  battery r = None /\ elapsed_time r = None /\
  temperature_c r = None /\ temperature_f r = None /\ humidity r = None /\
  weight_left_lbs r = None /\ weight_right_lbs r = None /\
  total_weight_lbs r = None.
Proof.
  intros Hs H. apply process_short_inv in H as (saved & -> & ->); [|lia].
  repeat split.
Qed.

Lemma process_short_payload_witness :
  exists r,
    _process_broodminder_manufacturer_data dev0 (Some saved0) adv0 payload_W_14
    = Returned (Some r) /\
    battery r = None /\ total_weight_lbs r = None.
Proof.
  assert (H : exists r,
             _process_broodminder_manufacturer_data dev0 (Some saved0) adv0 payload_W_14
             = Returned (Some r))
    by (eexists; vm_compute; reflexivity).
  destruct H as [r Hr]. exists r. split; [exact Hr|].
  destruct (process_short_payload dev0 (Some saved0) adv0 payload_W_14 r)
    as (Hb & _ & _ & _ & _ & _ & _ & Ht); [unfold len; simpl; lia | exact Hr |].
  split; [exact Hb | exact Ht].
Defined.

Lemma before_override_battery (model_number : Z) (data : list byte) (result : t) :
  battery (before_override model_number data result) = Some (byte_at data 4) /\
  elapsed_time (before_override model_number data result) = Some (u16_at data 5).
Proof. destruct result. block_fields. Qed.

Lemma before_override_humidity (model_number : Z) (data : list byte) (result : t) :
  humidity (before_override model_number data result)
  = if in_tuple model_number [42; 47] then Some (byte_at data 14)
    else humidity result.
Proof. destruct result. block_fields. Qed.

(** From 15 bytes on, every model gets battery (byte 4, 0 to 255) and elapsed
    time (bytes 5-6 little-endian, 0 to 65535); humidity (byte 14) goes to
    models 42 and 47 and to no other. *)
Theorem process_battery_elapsed_humidity (device : BLEDevice.t)
    (saved_device : option BroodminderDevice.t) (adv_data : AdvertisementData.t)
    (data : list byte) (r : t) :
  15 <= len data ->
  _process_broodminder_manufacturer_data device saved_device adv_data data
  = Returned (Some r) ->
  (exists b, battery r = Some b /\ b = byte_at data 4 /\ 0 <= b < 256) /\
  (exists m, elapsed_time r = Some m /\ m = u16_at data 5 /\ 0 <= m < 65536) /\
  (in_tuple (byte_at data 0) [42; 47] = true ->
   exists h, humidity r = Some h /\ h = byte_at data 14 /\ 0 <= h < 256) /\
  (in_tuple (byte_at data 0) [42; 47] = false -> humidity r = None).
Proof.
  intros Hl H. apply process_long_inv in H as (saved & -> & H); [|lia].
  apply parse_total_weight_header in H as (_ & _ & _ & _ & _ & _ & -> & -> & ->).
  destruct (before_override_battery (byte_at data 0) data
              (first_result device saved adv_data data)) as [-> ->].
  rewrite before_override_humidity.
  split; [|split; [|split]].
  - eexists. split; [reflexivity|]. split; [reflexivity | apply byte_at_range].
  - eexists. split; [reflexivity|]. split; [reflexivity | apply u16_at_range].
  - intros ->. eexists. split; [reflexivity|].
    split; [reflexivity | apply byte_at_range].
  - intros ->. reflexivity.
Qed.

Lemma process_battery_elapsed_humidity_witness :
  exists r,
    _process_broodminder_manufacturer_data dev0 (Some saved0) adv0 payload_TH
    = Returned (Some r) /\
    battery r = Some 0 /\ elapsed_time r = Some 10 /\ humidity r = Some 55.
Proof.
  assert (H : exists r,
             _process_broodminder_manufacturer_data dev0 (Some saved0) adv0 payload_TH
             = Returned (Some r))
    by (eexists; vm_compute; reflexivity).
  destruct H as [r Hr]. exists r. split; [exact Hr|].
  destruct (process_battery_elapsed_humidity dev0 (Some saved0) adv0 payload_TH r)
    as ((b & Hb & -> & _) & (m & Hm & -> & _) & Hh & _);
    [unfold len; simpl; lia | exact Hr |].
  destruct Hh as (h & Hh & -> & _); [reflexivity|].
  split; [exact Hb|]. split; [exact Hm | exact Hh].
Defined.

Lemma before_override_weights (model_number : Z) (data : list byte) (result : t) :
  weight_left_lbs result = None ->
  weight_right_lbs result = None ->
  total_weight_lbs result = None ->
  let r := before_override model_number data result in
  if in_tuple model_number scale_models then
    weight_left_lbs r = side_lbs (u16_at data 10) /\
    weight_right_lbs r = side_lbs (u16_at data 12) /\
    total_weight_lbs r
    = sides_total (side_lbs (u16_at data 10)) (side_lbs (u16_at data 12))
  else
    weight_left_lbs r = None /\ weight_right_lbs r = None /\
    total_weight_lbs r = None.
Proof.
  destruct result. cbn [weight_left_lbs weight_right_lbs total_weight_lbs].
  intros -> -> ->. unfold sides_total. block_fields; repeat split.
Qed.

(** The weight fields of a reading returned for 15 bytes or more. *)
Lemma reading_weights (device : BLEDevice.t)
    (saved_device : option BroodminderDevice.t) (adv_data : AdvertisementData.t)
    (data : list byte) (r : t) :
  15 <= len data ->
  _process_broodminder_manufacturer_data device saved_device adv_data data
  = Returned (Some r) ->
  if in_tuple (byte_at data 0) scale_models then
    weight_left_lbs r = side_lbs (u16_at data 10) /\
    weight_right_lbs r = side_lbs (u16_at data 12) /\
    total_weight_lbs r
    = if (19 <? len data) && negb (u16_at data 19 =? 0x7FFF)
      then Some (lbs_of_raw (u16_at data 19) * SCALE_FACTOR)%float
      else sides_total (side_lbs (u16_at data 10)) (side_lbs (u16_at data 12))
  else
    weight_left_lbs r = None /\ weight_right_lbs r = None /\
    total_weight_lbs r = None.
Proof.
  intros Hl H. apply process_long_inv in H as (saved & -> & H); [|lia].
  pose proof (before_override_weights (byte_at data 0) data
                (first_result device saved adv_data data) eq_refl eq_refl eq_refl)
    as Hw.
  cbv zeta in Hw.
  destruct (in_tuple (byte_at data 0) scale_models) eqn:Hm.
  - destruct Hw as (Hwl & Hwr & Hwt).
    pose proof (parse_total_weight_keeps _ _ _ _ H) as (_ & _ & -> & -> & _).
    split; [exact Hwl|]. split; [exact Hwr|].
    destruct (Z.eq_dec (len data) 20) as [H20|H20].
    + rewrite parse_total_weight_raises in H by assumption. discriminate.
    + rewrite parse_total_weight_returns in H by assumption.
      rewrite Hm in H. simpl in H.
      destruct ((19 <? len data) && negb (u16_at data 19 =? 32767));
        injection H as <-; [reflexivity | exact Hwt].
  - rewrite parse_total_weight_unscaled in H by exact Hm. injection H as <-.
    exact Hw.
Qed.

(** What holds of every reading the decoder returns: the two temperature
    fields come together, and a side weight comes with a total. *)
Lemma reading_invariants (device : BLEDevice.t)
    (saved_device : option BroodminderDevice.t) (adv_data : AdvertisementData.t)
    (data : list byte) (r : t) :
  _process_broodminder_manufacturer_data device saved_device adv_data data
  = Returned (Some r) ->
  (is_Some (temperature_c r) <-> is_Some (temperature_f r)) /\
  (is_Some (weight_left_lbs r) \/ is_Some (weight_right_lbs r) ->
   is_Some (total_weight_lbs r)).
Proof.
  intros H. split.
  - apply process_temperature in H.
    destruct (15 <=? len data);
      [destruct (in_tuple (byte_at data 0) legacy_models);
       [|destruct ((47 <=? byte_at data 0) && (5000 <? u16_at data 7))]|];
      injection H as -> ->; split; intros [x Hx]; try discriminate;
      eexists; reflexivity.
  - destruct (Z.lt_ge_cases (len data) 15) as [Hs|Hl].
    + apply process_short_inv in H as (saved & -> & ->); [|lia].
      intros [[x Hx]|[x Hx]]; discriminate.
    + pose proof (reading_weights _ _ _ _ _ Hl H) as Hw.
      destruct (in_tuple (byte_at data 0) scale_models).
      * destruct Hw as (-> & -> & ->). intros Hside.
        destruct ((19 <? len data) && _); [eexists; reflexivity|].
        destruct (side_lbs (u16_at data 10)), (side_lbs (u16_at data 12));
          simpl; try (eexists; reflexivity).
        destruct Hside as [[x Hx]|[x Hx]]; discriminate.
      * destruct Hw as (-> & -> & ->).
        intros [[x Hx]|[x Hx]]; discriminate.
Qed.

(** The weights of a scale model, from 15 bytes on: each side is
    [(raw - 32767) / 100] unless its raw value is the sentinel; the total
    comes from bytes 19-20 when the payload has them and they are not the
    sentinel, and from the sides otherwise (mean of both, or the single one,
    times [SCALE_FACTOR]; absent when both sides are). *)
Theorem process_scale_weights (device : BLEDevice.t)
    (saved_device : option BroodminderDevice.t) (adv_data : AdvertisementData.t)
    (data : list byte) (r : t) :
  in_tuple (byte_at data 0) scale_models = true ->
  15 <= len data ->
  _process_broodminder_manufacturer_data device saved_device adv_data data
  = Returned (Some r) ->
  weight_left_lbs r = side_lbs (u16_at data 10) /\
  weight_right_lbs r = side_lbs (u16_at data 12) /\
  total_weight_lbs r
  = if (19 <? len data) && negb (u16_at data 19 =? 0x7FFF)
    then Some (lbs_of_raw (u16_at data 19) * SCALE_FACTOR)%float
    else sides_total (side_lbs (u16_at data 10)) (side_lbs (u16_at data 12)).
Proof.
  intros Hm Hl H. pose proof (reading_weights _ _ _ _ _ Hl H) as Hw.
  rewrite Hm in Hw. exact Hw.
Qed.

Lemma process_scale_weights_witness :
  exists r,
    _process_broodminder_manufacturer_data dev0 (Some saved0) adv0 payload_W_both
    = Returned (Some r) /\
    weight_left_lbs r = Some (0.17)%float /\
    weight_right_lbs r = Some (0.33)%float /\
    total_weight_lbs r = Some (0.5)%float.
Proof.
  assert (H : exists r,
             _process_broodminder_manufacturer_data dev0 (Some saved0) adv0
               payload_W_both = Returned (Some r))
    by (eexists; vm_compute; reflexivity).
  destruct H as [r Hr]. exists r. split; [exact Hr|].
  exact (process_scale_weights dev0 (Some saved0) adv0 payload_W_both r
           eq_refl ltac:(unfold len; simpl; lia) Hr).
Defined.

(** In every reading the decoder returns, a side weight never comes without
    a total; and there is no weight at all unless the model is a scale and
    the payload has 15 bytes or more. *)
Theorem process_weight_invariant (device : BLEDevice.t)
    (saved_device : option BroodminderDevice.t) (adv_data : AdvertisementData.t)
    (data : list byte) (r : t) :
  _process_broodminder_manufacturer_data device saved_device adv_data data
  = Returned (Some r) ->
  (is_Some (weight_left_lbs r) \/ is_Some (weight_right_lbs r) ->
   is_Some (total_weight_lbs r)) /\
  (in_tuple (byte_at data 0) scale_models = false \/ len data < 15 ->
   weight_left_lbs r = None /\ weight_right_lbs r = None /\
   total_weight_lbs r = None).
Proof.
  intros H. split; [exact (proj2 (reading_invariants _ _ _ _ _ H))|].
  destruct (Z.lt_ge_cases (len data) 15) as [Hs|Hl].
  - intros _. apply process_short_inv in H as (saved & -> & ->); [|lia].
    repeat split.
  - intros [Hm|Hs]; [|lia].
    pose proof (reading_weights _ _ _ _ _ Hl H) as Hw.
    rewrite Hm in Hw. exact Hw.
Qed.

Lemma process_weight_invariant_witness :
  exists r,
    _process_broodminder_manufacturer_data dev0 (Some saved0) adv0 payload_W_15
    = Returned (Some r) /\
    is_Some (total_weight_lbs r).
Proof.
  eexists. split; [vm_compute; reflexivity|].
  refine (proj1 (process_weight_invariant dev0 (Some saved0) adv0 payload_W_15 _ _) _).
  - vm_compute. reflexivity.
  - right. eexists. reflexivity.
Defined.

(** Temperature is present exactly for payloads of 15 bytes or more of a
    legacy model, or of a model code of 47 or more whose raw temperature
    exceeds 5000; every other model code never gets one. *)
Theorem process_temperature_present_iff (device : BLEDevice.t)
    (saved_device : option BroodminderDevice.t) (adv_data : AdvertisementData.t)
    (data : list byte) (r : t) :
  _process_broodminder_manufacturer_data device saved_device adv_data data
  = Returned (Some r) ->
  (is_Some (temperature_c r)
   <-> 15 <= len data /\
       (in_tuple (byte_at data 0) legacy_models = true \/
        (47 <= byte_at data 0 /\ 5000 < u16_at data 7))).
Proof.
  intros H. apply process_temperature in H.
  destruct (Z.leb_spec 15 (len data)) as [Hl|Hs].
  - destruct (in_tuple (byte_at data 0) legacy_models) eqn:Hm.
    + injection H as -> _. split; [auto|]. intros _. eexists. reflexivity.
    + destruct (Z.leb_spec 47 (byte_at data 0)) as [H47|H47];
        destruct (Z.ltb_spec 5000 (u16_at data 7)) as [Hraw|Hraw];
        simpl in H; injection H as -> _; split;
        try (intros [x Hx]; discriminate);
        try (intros (_ & [?|[? ?]]); (discriminate || lia)).
      * intros _. split; [lia|]. right. lia.
      * intros _. eexists. reflexivity.
  - injection H as -> _. split; [intros [x Hx]; discriminate | lia].
Qed.

Lemma process_temperature_present_iff_witness :
  exists r,
    _process_broodminder_manufacturer_data dev0 (Some saved0) adv0 payload_unknown_44
    = Returned (Some r) /\
    ~ is_Some (temperature_c r).
Proof.
  eexists. split; [vm_compute; reflexivity|].
  intros Hsome.
  apply (process_temperature_present_iff dev0 (Some saved0) adv0 payload_unknown_44)
    in Hsome; [|vm_compute; reflexivity].
  destruct Hsome as (_ & [Hl|[H47 _]]); [discriminate Hl|].
  vm_compute in H47. apply H47. reflexivity.
Defined.

(** * The dispatcher and the scanner callback *)

Lemma first_broodminder_item_None (items : list (Z * list byte)) :
  Forall (fun item => fst item <> BROODMINDER_MANUFACTURER_ID) items ->
  first_broodminder_item items = None.
Proof.
  induction 1 as [|[k d] items Hk _ IH]; [reflexivity|]. simpl in *.
  rewrite (proj2 (Z.eqb_neq _ _) Hk). exact IH.
Qed.

Lemma first_broodminder_item_Some (pre post : list (Z * list byte)) (data : list byte) :
  Forall (fun item => fst item <> BROODMINDER_MANUFACTURER_ID) pre ->
  first_broodminder_item (pre ++ (BROODMINDER_MANUFACTURER_ID, data) :: post)
  = Some data.
Proof.
  induction 1 as [|[k d] items Hk _ IH]; simpl in *.
  - reflexivity.
  - rewrite (proj2 (Z.eqb_neq _ _) Hk). exact IH.
Qed.

(** [parse_broodminder_data] answers [None] when no manufacturer entry has
    the Broodminder id, and otherwise decodes the payload stored under that
    id, whatever other vendors' entries surround it. *)
Theorem parse_broodminder_data_dispatch (device : BLEDevice.t)
    (saved_device : option BroodminderDevice.t) (adv_data : AdvertisementData.t) :
  (Forall (fun item => fst item <> BROODMINDER_MANUFACTURER_ID)
          (AdvertisementData.manufacturer_data adv_data) ->
   parse_broodminder_data device saved_device adv_data = Returned None) /\
  (forall pre data post,
      AdvertisementData.manufacturer_data adv_data
      = (pre ++ (BROODMINDER_MANUFACTURER_ID, data) :: post)%list ->
      Forall (fun item => fst item <> BROODMINDER_MANUFACTURER_ID) pre ->
      parse_broodminder_data device saved_device adv_data
      = _process_broodminder_manufacturer_data device saved_device adv_data data).
Proof.
  unfold parse_broodminder_data. split.
  - intros H. pose proof (first_broodminder_item_None _ H) as Hnone.
    destruct (AdvertisementData.manufacturer_data adv_data); [reflexivity|].
    rewrite Hnone. reflexivity.
  - intros pre data post -> Hpre.
    pose proof (first_broodminder_item_Some pre post data Hpre) as Hsome.
    destruct pre; cbn [app] in *; cbv beta iota; rewrite Hsome; reflexivity.
Qed.

Lemma parse_broodminder_data_dispatch_witness :
  parse_broodminder_data dev0 (Some saved0) (adv_two_vendors payload_TH)
  = _process_broodminder_manufacturer_data dev0 (Some saved0)
      (adv_two_vendors payload_TH) payload_TH.
Proof.
  destruct (parse_broodminder_data_dispatch dev0 (Some saved0)
              (adv_two_vendors payload_TH)) as [_ Hsome].
  apply (Hsome [(0x004C, map B [2; 21])] payload_TH []); [reflexivity|].
  constructor; [vm_compute; discriminate | constructor].
Defined.

Lemma parse_broodminder_data_first (device : BLEDevice.t)
    (saved_device : option BroodminderDevice.t) (adv_data : AdvertisementData.t) :
  parse_broodminder_data device saved_device adv_data
  = match first_broodminder_item (AdvertisementData.manufacturer_data adv_data) with
    | Some data =>
        _process_broodminder_manufacturer_data device saved_device adv_data data
    | None => Returned None
    end.
Proof.
  unfold parse_broodminder_data.
  destruct (AdvertisementData.manufacturer_data adv_data); reflexivity.
Qed.

Lemma ingest_not_raised (devices_found : list t) (r : t) (e : PyExn) :
  ingest devices_found r <> Raised e.
Proof.
  unfold ingest.
  destruct (find_existing (address r) devices_found 0) as [[i existing]|] eqn:Hfind.
  - apply find_existing_Some in Hfind as (pre & post & -> & -> & Ha & Hpre).
    simpl. rewrite <- Ha in Hpre. rewrite list_remove_found by exact Hpre.
    discriminate.
  - discriminate.
Qed.

(** [ingest] never raises, whatever the list: the [remove] always finds the
    entry the loop stopped at.  At most one entry goes, and none when the
    address is new. *)
Theorem ingest_always_returns (devices_found : list t) (r : t) :
  exists kept,
    ingest devices_found r = Returned (kept ++ [r])%list /\
    sublist kept devices_found /\
    (length devices_found <= S (length kept))%nat /\
    (address r ∉ address <$> devices_found -> kept = devices_found).
Proof.
  unfold ingest.
  destruct (find_existing (address r) devices_found 0) as [[i existing]|] eqn:Hfind.
  - apply find_existing_Some in Hfind as (pre & post & -> & -> & Ha & Hpre).
    simpl. rewrite <- Ha in Hpre. rewrite list_remove_found by exact Hpre.
    exists (pre ++ post)%list. split; [reflexivity|]. split; [|split].
    + apply sublist_app; [reflexivity|]. apply sublist_cons. reflexivity.
    + rewrite !length_app. simpl. lia.
    + intros Hnew. exfalso. apply Hnew. rewrite <- Ha.
      apply list_elem_of_fmap_2. apply elem_of_app. right.
      apply elem_of_cons. left. reflexivity.
  - exists devices_found. split; [reflexivity|]. split; [reflexivity|].
    split; [lia | reflexivity].
Qed.

(** What a detection callback can do.  It ends in an exception in two ways
    only: the decoder's [IndexError] on a 20-byte Broodminder payload of a
    scale model, which leaves [devices_found] as it was, and, in TEXT mode,
    an exception of the console output, which comes after the list has been
    updated; a missing saved device and [remove] never make it raise.  The
    list it leaves is either unchanged or has lost the entry of the device's
    address and gained, at the end, a reading with that address, the friendly
    name of the saved record (none for an address not saved) and the
    advertised name or else the saved one; addresses stay pairwise distinct. *)
Theorem callback_outcome (console_print_found : bool -> t -> outcome unit)
    (output_format : OutputFormat) (show_raw : bool)
    (saved_devices : gmap string BroodminderDevice.t)
    (devices_found : list t) (device : BLEDevice.t) (adv_data : AdvertisementData.t) :
  let saved := callback_saved_device saved_devices device adv_data in
  let result :=
    callback console_print_found output_format show_raw saved_devices devices_found
      device adv_data in
  (forall e,
      snd result = Raised e ->
      (e = IndexError /\ fst result = devices_found /\
       exists data,
         first_broodminder_item (AdvertisementData.manufacturer_data adv_data)
         = Some data /\
         in_tuple (byte_at data 0) scale_models = true /\ len data = 20) \/
      (output_format = TEXT /\
       exists r,
         parse_broodminder_data device (Some saved) adv_data = Returned (Some r) /\
         ingest devices_found r = Returned (fst result) /\
         console_print_found show_raw r = Raised e)) /\
  (NoDup (address <$> devices_found) ->
   NoDup (address <$> fst result) /\
   (fst result = devices_found \/
    exists r,
      fst result
      = (filter (fun y => address y <> BLEDevice.address device) devices_found
           ++ [r])%list /\
      address r = BLEDevice.address device /\
      friendly_name r = BroodminderDevice.friendly_name saved /\
      name r = resolved_name adv_data saved)).
Proof.
  intros saved result. subst result. unfold callback. fold saved.
  destruct (parse_broodminder_data device (Some saved) adv_data)
    as [[r|]|e'] eqn:Hparse.
  - pose proof Hparse as Hp. rewrite parse_broodminder_data_first in Hp.
    destruct (first_broodminder_item (AdvertisementData.manufacturer_data adv_data))
      as [data|]; [|discriminate].
    destruct (process_header_fields _ _ _ _ _ Hp) as (saved0' & _ & Ha & _).
    simpl in Ha.
    destruct (process_name _ _ _ _ _ Hp) as (saved' & [= <-] & Hn & Hf).
    destruct (ingest devices_found r) as [found|e'] eqn:Hing;
      [|exfalso; exact (ingest_not_raised _ _ _ Hing)].
    simpl. split.
    + intros e He. right. destruct output_format; try discriminate.
      split; [reflexivity|]. exists r. auto.
    + intros Hnd. rewrite ingest_returns in Hing by exact Hnd.
      injection Hing as <-. split; [apply NoDup_after_ingest; exact Hnd|].
      right. exists r. rewrite <- Ha. repeat split; assumption.
  - simpl. split; [intros e He; discriminate|].
    intros Hnd. split; [exact Hnd | left; reflexivity].
  - simpl. split; [|intros Hnd; split; [exact Hnd | left; reflexivity]].
    intros e [= <-]. left.
    rewrite parse_broodminder_data_first in Hparse.
    destruct (first_broodminder_item (AdvertisementData.manufacturer_data adv_data))
      as [data|]; [|discriminate].
    apply process_saved_raised_inv in Hparse as (-> & Hm & H20).
    split; [reflexivity|]. split; [reflexivity|]. exists data. auto.
Qed.

Lemma callback_outcome_witness :
  let result :=
    callback console_failing TEXT false ∅ [reading_of "AA:BB" (-70)] dev0
      (adv_two_vendors payload_TH) in
  snd result = Raised ValueError /\
  exists r, fst result = [r] /\ name r = Some "Hive1" /\ friendly_name r = None.
Proof.
  intros result. split; [reflexivity|].
  destruct (callback_outcome console_failing TEXT false ∅ [reading_of "AA:BB" (-70)]
              dev0 (adv_two_vendors payload_TH)) as [_ Hlist].
  destruct Hlist as (_ & [Hsame|(r & Hr & _ & Hf & Hn)]).
  - apply NoDup_singleton.
  - exfalso. vm_compute in Hsame. discriminate.
  - exists r. split; [exact Hr|]. split; [exact Hn | exact Hf].
Defined.

(** * Further properties of the saved-device registry *)

(** The name after [save_devices] is the last non-absent name of the
    readings of the address when there is one, and the old name otherwise. *)
Lemma last_name_init (a : string) (found_devices : list t) (init : option string) :
  last_name a found_devices init
  = match last_name a found_devices None with
    | Some n => Some n
    | None => init
    end.
Proof.
  revert init. induction found_devices as [|r l IH]; intros init; [reflexivity|].
  rewrite !last_name_cons. rewrite IH. rewrite (IH (if bool_decide _ then _ else _)).
  destruct (last_name a l None); [reflexivity|].
  destruct (bool_decide (address r = a)), (name r); reflexivity.
Qed.

Lemma last_name_idem (a : string) (found_devices : list t) (init : option string) :
  last_name a found_devices (last_name a found_devices init)
  = last_name a found_devices init.
Proof.
  rewrite (last_name_init a found_devices (last_name _ _ _)).
  rewrite (last_name_init a found_devices init).
  destruct (last_name a found_devices None); reflexivity.
Qed.

(** Saving the same readings a second time changes nothing. *)
Theorem save_devices_idempotent (saved_devices : gmap string BroodminderDevice.t)
    (found_devices : list t) :
  save_devices (save_devices saved_devices found_devices) found_devices
  = save_devices saved_devices found_devices.
Proof.
  apply map_eq. intros a.
  rewrite (save_devices_lookup (save_devices saved_devices found_devices)).
  rewrite (save_devices_lookup saved_devices).
  destruct (saved_devices !! a) as [d0|].
  - simpl. rewrite last_name_idem. reflexivity.
  - destruct (bool_decide (a ∈ address <$> found_devices)); [|reflexivity].
    simpl. rewrite last_name_idem. reflexivity.
Qed.

(** [save_devices] keeps the mapping keyed by address: its keys are the old
    keys and the addresses of the readings, and if every record was stored
    under its own address, every record still is. *)
Theorem save_devices_keys (saved_devices : gmap string BroodminderDevice.t)
    (found_devices : list t) :
  (forall a,
      is_Some (save_devices saved_devices found_devices !! a)
      <-> is_Some (saved_devices !! a) \/ a ∈ address <$> found_devices) /\
  ((forall a d, saved_devices !! a = Some d -> BroodminderDevice.address d = a) ->
   forall a d,
     save_devices saved_devices found_devices !! a = Some d ->
     BroodminderDevice.address d = a).
Proof.
  split.
  - intros a. rewrite save_devices_lookup.
    destruct (saved_devices !! a) as [d0|].
    + split; [intros _; left; eexists; reflexivity | intros _; eexists; reflexivity].
    + destruct (decide (a ∈ address <$> found_devices)) as [Hin|Hout].
      * rewrite (bool_decide_eq_true_2 _ Hin).
        split; [intros _; right; exact Hin | intros _; eexists; reflexivity].
      * rewrite (bool_decide_eq_false_2 _ Hout).
        split; [intros [x Hx]; discriminate|].
        intros [[x Hx]|Hin]; [discriminate | contradiction].
  - intros Hkey a d. rewrite save_devices_lookup.
    destruct (saved_devices !! a) as [d0|] eqn:Hold.
    + intros [= <-]. simpl. exact (Hkey a d0 Hold).
    + destruct (bool_decide (a ∈ address <$> found_devices)); [|discriminate].
      intros [= <-]. reflexivity.
Qed.

Lemma save_devices_keys_witness :
  exists d,
    save_devices registry0 [reading_A1; reading_B1; reading_A2] !! "BB:02" = Some d /\
    BroodminderDevice.address d = "BB:02".
Proof.
  eexists. split; [vm_compute; reflexivity|].
  refine (proj2 (save_devices_keys registry0 [reading_A1; reading_B1; reading_A2])
            _ "BB:02" _ _).
  - intros a d H. unfold registry0 in H.
    apply lookup_singleton_Some in H as [<- <-]. reflexivity.
  - vm_compute. reflexivity.
Defined.

(** *** The devices file *)

Lemma construct_device_asdict (d : BroodminderDevice.t) :
  construct_device (asdict d) = Returned (loaded_of d).
Proof. reflexivity. Qed.

Lemma build_devices_asdict (l : list (string * BroodminderDevice.t))
    (acc : gmap string LoadedDevice.t) :
  NoDup l.*1 ->
  build_devices (prod_map id asdict <$> l) acc
  = Returned (list_to_map (prod_map id loaded_of <$> l) ∪ acc).
Proof.
  revert acc. induction l as [|[k d] l IH]; intros acc Hnd.
  - simpl. rewrite (left_id_L ∅ (∪)). reflexivity.
  - rewrite fmap_cons in Hnd. apply NoDup_cons in Hnd as [Hk Hnd].
    rewrite !fmap_cons. simpl. rewrite (IH _ Hnd).
    f_equal. rewrite <- insert_union_r; [rewrite insert_union_l; reflexivity|].
    apply not_elem_of_list_to_map_1.
    rewrite <- list_fmap_compose.
    replace (fst ∘ prod_map id loaded_of) with (@fst string BroodminderDevice.t);
      [exact Hk|].
    reflexivity.
Qed.

(** Round trip through the devices file: loading the JSON value that
    [save_devices] dumps gives back every saved record, field by field
    (absent names as [null]). *)
Theorem load_saved_devices_round_trip (saved_devices : gmap string BroodminderDevice.t) :
  load_saved_devices (FilePresent (Returned (devices_dict saved_devices)))
  = Returned (loaded_of <$> saved_devices).
Proof.
  unfold load_saved_devices, devices_dict. simpl.
  rewrite build_devices_asdict by apply NoDup_fst_map_to_list.
  simpl. rewrite (right_id_L ∅ (∪)).
  f_equal. rewrite (list_to_map_fmap loaded_of).
  rewrite list_to_map_to_list. reflexivity.
Qed.

Lemma build_devices_bad_record (items : list (string * json))
    (acc : gmap string LoadedDevice.t) :
  Exists (fun item => exists e, construct_device (snd item) = Raised e) items ->
  build_devices items acc = Raised TypeError.
Proof.
  intros H. revert acc. induction H as [[k v] l [e He]|[k v] l _ IH]; intros acc; simpl.
  - simpl in He. rewrite He. simpl.
    rewrite (construct_device_exn v e He). reflexivity.
  - destruct (construct_device v) as [d|e] eqn:Hd; simpl.
    + apply IH.
    + rewrite (construct_device_exn v e Hd). reflexivity.
Qed.

(** Loading is all or nothing: one entry that is not a device record (not an
    object, an unknown key, no ["address"] or no ["name"]) makes the whole
    file load as the empty mapping, the good records with it. *)
Theorem load_saved_devices_one_bad_record (items : list (string * json)) :
  Exists (fun item => exists e, construct_device (snd item) = Raised e) items ->
  load_saved_devices (FilePresent (Returned (JObj items))) = Returned ∅.
Proof.
  intros H. simpl. rewrite (build_devices_bad_record items ∅ H). reflexivity.
Qed.

Lemma load_saved_devices_one_bad_record_witness :
  load_saved_devices (FilePresent (Returned file_one_bad_record)) = Returned ∅.
Proof.
  apply (load_saved_devices_one_bad_record
           [ ("AA:BB", JObj [ ("address", JStr "AA:BB"); ("name", JStr "Hive1");
                              ("friendly_name", JStr "Back yard") ]);
             ("CC:DD", JObj [ ("address", JStr "CC:DD") ]) ]).
  apply Exists_cons_tl. apply Exists_cons_hd. exists TypeError. reflexivity.
Defined.

(** [load_saved_devices] raises in two situations and no other: [json.load]
    raised something else than [JSONDecodeError] or [TypeError], or the file
    holds JSON that is not an object. *)
Theorem load_saved_devices_raises_iff (file : devices_file) (e : PyExn) :
  load_saved_devices file = Raised e
  <-> (file = FilePresent (Raised e) /\ e <> JSONDecodeError /\ e <> TypeError) \/
      (exists data,
          file = FilePresent (Returned data) /\
          (forall items, data <> JObj items) /\ e = AttributeError).
Proof.
  split.
  - destruct file as [|[data|e']]; simpl.
    + discriminate.
    + destruct data; simpl; try (intros [= <-]; right; eexists;
                                  split; [reflexivity|]; split; [discriminate|reflexivity]).
      destruct (build_devices items ∅) as [m|e'] eqn:Hb; simpl; [discriminate|].
      apply build_devices_exn in Hb as ->. discriminate.
    + destruct e'; simpl; try discriminate; intros [= <-]; left;
        repeat split; discriminate.
  - intros [(-> & Hj & Ht)|(data & -> & Hobj & ->)].
    + destruct e; try reflexivity; contradiction.
    + destruct data; try reflexivity. exfalso. exact (Hobj items eq_refl).
Qed.

(** * The device table of [monitor] and [influx_push] *)

Lemma replace_in_place_addresses (r : t) (snapshot : list t) :
  address <$> replace_in_place r snapshot
  = if bool_decide (address r ∈ address <$> snapshot)
    then address <$> snapshot
    else ((address <$> snapshot) ++ [address r])%list.
Proof.
  induction snapshot as [|x s IH]; [reflexivity|]. cbn [replace_in_place].
  rewrite (fmap_cons address x s).
  destruct (String.eqb_spec (address x) (address r)) as [Heq|Hne]; cbv beta iota.
  - rewrite bool_decide_eq_true_2 by (rewrite Heq; apply elem_of_cons; left; reflexivity).
    rewrite fmap_cons, Heq. reflexivity.
  - rewrite fmap_cons, IH.
    destruct (decide (address r ∈ address <$> s)) as [Hin|Hout].
    + rewrite !bool_decide_eq_true_2; [reflexivity | | exact Hin].
      apply elem_of_cons. right. exact Hin.
    + rewrite !bool_decide_eq_false_2; [reflexivity | | exact Hout].
      intros Hin. apply elem_of_cons in Hin as [Hin|Hin]; [|exact (Hout Hin)].
      exact (Hne (eq_sym Hin)).
Qed.

Lemma replace_in_place_elem (r y : t) (snapshot : list t) :
  NoDup (address <$> snapshot) ->
  y ∈ replace_in_place r snapshot ->
  y = r \/ (y ∈ snapshot /\ address y <> address r).
Proof.
  induction snapshot as [|x s IH]; simpl.
  - intros _ Hy. apply list_elem_of_singleton in Hy. left. exact Hy.
  - rewrite NoDup_cons. intros [Hx Hnd].
    destruct (String.eqb_spec (address x) (address r)) as [Heq|Hne]; intros Hy.
    + apply elem_of_cons in Hy as [->|Hy]; [left; reflexivity|].
      right. split; [apply elem_of_cons; right; exact Hy|].
      intros Hyr. apply Hx. rewrite Heq, <- Hyr. apply list_elem_of_fmap_2. exact Hy.
    + apply elem_of_cons in Hy as [->|Hy].
      * right. split; [apply elem_of_cons; left; reflexivity | exact Hne].
      * destruct (IH Hnd Hy) as [->|[Hin Hyr]]; [left; reflexivity|].
        right. split; [apply elem_of_cons; right; exact Hin | exact Hyr].
Qed.

Lemma first_sighting_snapshot_snoc (readings : list t) (r : t) :
  first_sighting_snapshot (readings ++ [r])
  = replace_in_place r (first_sighting_snapshot readings).
Proof. unfold first_sighting_snapshot. rewrite foldl_app. reflexivity. Qed.

(** Replacement in place: one entry per address, the last reading of that
    address, the addresses in the order in which they first appeared. *)
Lemma first_sighting_snapshot_spec (readings : list t) :
  NoDup (address <$> first_sighting_snapshot readings) /\
  (forall a, a ∈ address <$> first_sighting_snapshot readings
             <-> a ∈ address <$> readings) /\
  (forall y, y ∈ first_sighting_snapshot readings ->
             exists pre post,
               readings = (pre ++ y :: post)%list /\ address y ∉ address <$> post) /\
  address <$> first_sighting_snapshot readings
  = reverse (remove_dups (reverse (address <$> readings))).
Proof.
  induction readings as [|r l (Hnd & Hdom & Hlast & Hord)] using rev_ind.
  - split; [constructor|]. split; [reflexivity|].
    split; [intros y Hy; inversion Hy | reflexivity].
  - rewrite first_sighting_snapshot_snoc.
    assert (Hin_iff : address r ∈ address <$> first_sighting_snapshot l
                      <-> address r ∈ reverse (address <$> l))
      by (rewrite Hdom, elem_of_reverse; reflexivity).
    split; [|split; [|split]].
    + rewrite replace_in_place_addresses.
      destruct (decide (address r ∈ address <$> first_sighting_snapshot l))
        as [Hin|Hout].
      * rewrite bool_decide_eq_true_2 by exact Hin. exact Hnd.
      * rewrite bool_decide_eq_false_2 by exact Hout.
        apply NoDup_app. split; [exact Hnd|]. split; [|apply NoDup_singleton].
        intros a Ha Har. apply list_elem_of_singleton in Har as ->. exact (Hout Ha).
    + intros a. rewrite replace_in_place_addresses, fmap_app, elem_of_app.
      simpl. rewrite list_elem_of_singleton.
      destruct (decide (address r ∈ address <$> first_sighting_snapshot l))
        as [Hin|Hout].
      * rewrite bool_decide_eq_true_2 by exact Hin. rewrite Hdom.
        split; [auto|]. intros [Ha | ->]; [exact Ha|]. apply Hdom. exact Hin.
      * rewrite bool_decide_eq_false_2 by exact Hout.
        rewrite elem_of_app, list_elem_of_singleton, Hdom. reflexivity.
    + intros y Hy.
      apply (replace_in_place_elem r y _ Hnd) in Hy as [-> | [Hy Hne]].
      * exists l, []. split; [reflexivity|]. intros Hin. inversion Hin.
      * destruct (Hlast y Hy) as (pre & post & -> & Hpost).
        exists pre, (post ++ [r])%list. split; [rewrite <- app_assoc; reflexivity|].
        rewrite fmap_app. intros Hin. apply elem_of_app in Hin as [Hin|Hin].
        -- exact (Hpost Hin).
        -- simpl in Hin. apply list_elem_of_singleton in Hin. exact (Hne Hin).
    + rewrite replace_in_place_addresses, fmap_app. simpl.
      rewrite reverse_app. simpl.
      destruct (decide (address r ∈ address <$> first_sighting_snapshot l))
        as [Hin|Hout].
      * rewrite bool_decide_eq_true_2 by exact Hin.
        destruct (decide_rel elem_of (address r) (reverse (address <$> l)))
          as [Hd|Hd]; [exact Hord|].
        exfalso. apply Hd, Hin_iff. exact Hin.
      * rewrite bool_decide_eq_false_2 by exact Hout.
        destruct (decide_rel elem_of (address r) (reverse (address <$> l)))
          as [Hd|Hd]; [exfalso; apply Hout, Hin_iff; exact Hd|].
        rewrite reverse_cons, Hord. reflexivity.
Qed.

Lemma dict_set_values (r : t) (devices : list (string * t)) :
  Forall (fun kv => fst kv = address (snd kv)) devices ->
  Forall (fun kv => fst kv = address (snd kv)) (dict_set (address r) r devices) /\
  dict_values (dict_set (address r) r devices)
  = replace_in_place r (dict_values devices).
Proof.
  unfold dict_values.
  induction 1 as [|[k v] d Hk Hd [IHk IHv]]; simpl.
  - split; [repeat constructor | reflexivity].
  - simpl in Hk. subst k.
    destruct (String.eqb_spec (address v) (address r)) as [Heq|Hne].
    + split; [constructor; [exact Heq | exact Hd] | reflexivity].
    + split; [constructor; [reflexivity | exact IHk]|].
      rewrite fmap_cons, IHv. reflexivity.
Qed.

Lemma update_devices_values (found_devices : list t) (devices : list (string * t)) :
  Forall (fun kv => fst kv = address (snd kv)) devices ->
  Forall (fun kv => fst kv = address (snd kv)) (update_devices devices found_devices) /\
  dict_values (update_devices devices found_devices)
  = foldl (fun snapshot r => replace_in_place r snapshot) (dict_values devices)
          found_devices.
Proof.
  revert devices. induction found_devices as [|r l IH]; intros devices Hk.
  - split; [exact Hk | reflexivity].
  - destruct (dict_set_values r devices Hk) as [Hk' Hv'].
    destruct (IH _ Hk') as [Hk'' Hv''].
    unfold update_devices in *. simpl. split; [exact Hk''|].
    rewrite Hv'', Hv'. reflexivity.
Qed.

Lemma monitor_devices_values (scans : list (list t)) :
  Forall (fun kv => fst kv = address (snd kv)) (monitor_devices scans) /\
  dict_values (monitor_devices scans) = first_sighting_snapshot (concat scans).
Proof.
  unfold monitor_devices, first_sighting_snapshot.
  induction scans as [|found scans [IHk IHv]] using rev_ind.
  - split; [constructor | reflexivity].
  - rewrite foldl_app. simpl.
    destruct (update_devices_values found _ IHk) as [Hk Hv].
    split; [exact Hk|].
    rewrite Hv, IHv, concat_app, foldl_app. simpl. rewrite app_nil_r. reflexivity.
Qed.

(** The table [monitor] and [influx_push] keep across scans, unlike the
    list of one scan, replaces in place: it has one row per address, the row
    is the last reading found for that address over all scans so far, each
    row is stored under its own address, and the rows stand in the order in
    which the addresses were first found. *)
Theorem monitor_devices_first_sighting (scans : list (list t)) :
  let rows := dict_values (monitor_devices scans) in
  fst <$> monitor_devices scans = address <$> rows /\
  NoDup (address <$> rows) /\
  (forall r, r ∈ rows ->
             exists pre post,
               concat scans = (pre ++ r :: post)%list /\
               address r ∉ address <$> post) /\
  address <$> rows = reverse (remove_dups (reverse (address <$> concat scans))).
Proof.
  intros rows. subst rows.
  destruct (monitor_devices_values scans) as [Hk Hv].
  destruct (first_sighting_snapshot_spec (concat scans)) as (Hnd & _ & Hlast & Hord).
  rewrite Hv. split; [|split; [exact Hnd | split; [exact Hlast | exact Hord]]].
  rewrite <- Hv. unfold dict_values. clear -Hk.
  induction Hk as [|[k v] d Hkv _ IH]; [reflexivity|].
  rewrite !fmap_cons, IH. simpl in Hkv. rewrite Hkv. reflexivity.
Qed.

(** * The JSON output *)

Ltac key_present :=
  solve [apply list_elem_of_In; simpl; repeat (first [left; reflexivity | right])].
Ltac key_absent :=
  let H := fresh in
  solve [intros H; apply list_elem_of_In in H; simpl in H; intuition discriminate].

(** [output_json] drops nothing the decoder measured: for a decoded reading
    each optional quantity has its key in the JSON object exactly when it is
    present in the reading.  The name and the friendly name are never part
    of the object. *)
Theorem json_device_data_of_reading (timestamp : string) (r : t) :
  decoded r ->
  let keys := fst <$> json_device_data timestamp r in
  (is_Some (battery r) <-> "battery" ∈ keys) /\
  (is_Some (elapsed_time r) <-> "elapsed_time" ∈ keys) /\
  (is_Some (temperature_c r) <-> "temperature_c" ∈ keys) /\
  (is_Some (temperature_f r) <-> "temperature_f" ∈ keys) /\
  (is_Some (humidity r) <-> "humidity" ∈ keys) /\
  (is_Some (total_weight_lbs r) <-> "total_weight_lbs" ∈ keys) /\
  (is_Some (weight_left_lbs r) <-> "weight_left_lbs" ∈ keys) /\
  (is_Some (weight_right_lbs r) <-> "weight_right_lbs" ∈ keys) /\
  ("name" ∉ keys) /\ ("friendly_name" ∉ keys).
Proof.
  intros (device & saved_device & adv_data & data & H).
  destruct (reading_invariants _ _ _ _ _ H) as [Htemp Hweight]. clear H.
  destruct r as [a n fn rs mn mname fw tf tc hum wl wr tot bat el raw].
  simpl in Htemp, Hweight. intros keys. subst keys.
  unfold json_device_data.
  cbn [battery elapsed_time temperature_c temperature_f humidity total_weight_lbs
       weight_left_lbs weight_right_lbs address rssi model_number model_name
       firmware_version].
  assert (Hno : forall A (x : option A), is_Some x -> x <> None)
    by (intros A x [y ->]; discriminate).
  assert (Hnone : forall A, ~ is_Some (@None A)) by (intros A [y Hy]; discriminate).
  assert (Hsome : forall A (x : A), is_Some (Some x)) by (intros; eexists; reflexivity).
  destruct tc as [c|]; [destruct tf as [f|]; [|exfalso; apply (Hnone float), Htemp, Hsome]
                       |destruct tf as [f|]; [exfalso; apply (Hnone float), Htemp, Hsome|]];
    (destruct tot as [total|];
     [|destruct wl; [exfalso; apply (Hnone float), Hweight; left; apply Hsome|];
       destruct wr; [exfalso; apply (Hnone float), Hweight; right; apply Hsome|]]);
    destruct bat, el, hum; try destruct wl; try destruct wr;
    repeat split;
    try (intros _; key_present);
    try (intros _; apply Hsome);
    try (intros Hx; exfalso; exact (Hnone _ Hx));
    try key_absent.
Qed.

Lemma json_device_data_of_reading_witness :
  exists r,
    _process_broodminder_manufacturer_data dev0 (Some saved0) adv0 payload_W_15
    = Returned (Some r) /\
    "weight_right_lbs" ∈ fst <$> json_device_data "2025-01-01T00:00:00" r /\
    "weight_left_lbs" ∉ fst <$> json_device_data "2025-01-01T00:00:00" r.
Proof.
  eexists. split; [vm_compute; reflexivity|].
  match goal with
  | |- context [json_device_data _ ?r] =>
      destruct (json_device_data_of_reading "2025-01-01T00:00:00" r)
        as (_ & _ & _ & _ & _ & _ & Hl & Hr & _)
  end.
  - exists dev0, (Some saved0), adv0, payload_W_15. vm_compute. reflexivity.
  - split.
    + apply Hr. eexists. reflexivity.
    + intros Hin. apply Hl in Hin. destruct Hin as [x Hx]. discriminate.
Defined.

(** * InfluxDB points *)


(** The point built for a decoded reading.  The conversion never raises on
    it.  Signal strength is always a field, elapsed time never is; battery,
    humidity and the two temperatures are fields exactly when the reading
    has them; the total weight is a field only when it is above zero, and a
    side weight only when it is present and the total is above zero.  No
    field is ever [None]. *)
Theorem broodminder_to_point_of_reading (config : InfluxDBConfig.t) (now : Z) (r : t)
    (timestamp : option Z) :
  decoded r ->
  exists p,
    broodminder_to_point config now r timestamp = Returned p /\
    let keys := fst <$> Point.fields p in
    ("rssi" ∈ keys) /\ ("elapsed_time" ∉ keys) /\
    (is_Some (battery r) <-> "battery" ∈ keys) /\
    (is_Some (humidity r) <-> "humidity" ∈ keys) /\
    (is_Some (temperature_c r) <-> "temperature_c" ∈ keys) /\
    (is_Some (temperature_f r) <-> "temperature_f" ∈ keys) /\
    (positive_total r <-> "total_weight_lbs" ∈ keys) /\
    (is_Some (weight_left_lbs r) /\ positive_total r <-> "weight_left_lbs" ∈ keys) /\
    (is_Some (weight_right_lbs r) /\ positive_total r <-> "weight_right_lbs" ∈ keys) /\
    (forall k v, (k, v) ∈ Point.fields p -> v <> PyNone).
Proof.
  intros (device & saved_device & adv_data & data & H).
  destruct (reading_invariants _ _ _ _ _ H) as [Htemp Hweight]. clear H.
  destruct r as [a n fn rs mn mname fw tf tc hum wl wr tot bat el raw].
  simpl in Htemp, Hweight. unfold positive_total, broodminder_to_point, gt_zero.
  cbn [battery temperature_c temperature_f humidity total_weight_lbs
       weight_left_lbs weight_right_lbs].
  assert (Hnone : forall A, ~ is_Some (@None A)) by (intros A [y Hy]; discriminate).
  assert (Hsome : forall A (x : A), is_Some (Some x)) by (intros; eexists; reflexivity).
  assert (Hvalue : forall (fields : list (string * py_value)),
             Forall (fun kv => snd kv <> PyNone) fields ->
             forall k v, (k, v) ∈ fields -> v <> PyNone).
  { intros fields Hall k v Hin.
    exact (proj1 (Forall_forall _ _) Hall (k, v) Hin). }
  destruct tc as [c|]; [destruct tf as [f|]; [|exfalso; apply (Hnone float), Htemp, Hsome]
                       |destruct tf as [f|]; [exfalso; apply (Hnone float), Htemp, Hsome|]];
    (destruct tot as [total|];
     [destruct (PrimFloat.ltb (Z2f 0) total) eqn:Hpos
     |destruct wl; [exfalso; apply (Hnone float), Hweight; left; apply Hsome|];
      destruct wr; [exfalso; apply (Hnone float), Hweight; right; apply Hsome|]]);
    destruct bat, hum; try destruct wl; try destruct wr;
    (eexists; split; [reflexivity|]);
    cbv zeta; cbn [Point.fields Point.field];
    repeat split;
    try (intros _; key_present);
    try key_present;
    try (intros _; apply Hsome);
    try apply Hsome;
    try (intros _; eexists; split; [reflexivity | exact Hpos]);
    try (eexists; split; [reflexivity | exact Hpos]);
    try (intros Hx; exfalso; exact (Hnone _ Hx));
    try (intros [Hx _]; exfalso; exact (Hnone _ Hx));
    try (intros (total' & Ht & Hp); congruence);
    try (intros [_ (total' & Ht & Hp)]; congruence);
    try key_absent;
    try (exfalso; match goal with Hin : _ ∈ _ |- _ => revert Hin end; key_absent);
    try (apply Hvalue; repeat constructor; discriminate).
Qed.

Lemma broodminder_to_point_of_reading_witness :
  exists r p,
    _process_broodminder_manufacturer_data dev0 (Some saved0) adv0 payload_W_negative
    = Returned (Some r) /\
    is_Some (total_weight_lbs r) /\
    broodminder_to_point config0 0 r None = Returned p /\
    "total_weight_lbs" ∉ fst <$> Point.fields p.
Proof.
  eexists.
  match goal with
  | |- exists p, _ = Returned (Some ?r) /\ _ =>
      destruct (broodminder_to_point_of_reading config0 0 r None)
        as (p & Hp & _ & _ & _ & _ & _ & _ & Htotal & _)
  end.
  - exists dev0, (Some saved0), adv0, payload_W_negative. vm_compute. reflexivity.
  - exists p. split; [vm_compute; reflexivity|].
    split; [eexists; reflexivity|]. split; [exact Hp|].
    intros Hin. apply Htotal in Hin as (total & [= <-] & Hpos).
    vm_compute in Hpos. discriminate.
Defined.

(** For a record with a side weight and no total, which no decoding gives,
    the conversion compares [None] with zero and raises [TypeError]. *)
Theorem broodminder_to_point_side_without_total (config : InfluxDBConfig.t) (now : Z)
    (r : t) (timestamp : option Z) :
  total_weight_lbs r = None ->
  is_Some (weight_left_lbs r) \/ is_Some (weight_right_lbs r) ->
  broodminder_to_point config now r timestamp = Raised TypeError.
Proof.
  destruct r as [a n fn rs mn mname fw tf tc hum wl wr tot bat el raw].
  simpl. intros -> Hside. unfold broodminder_to_point, gt_zero.
  cbn [battery temperature_c temperature_f humidity total_weight_lbs
       weight_left_lbs weight_right_lbs].
  destruct wl as [l|]; [destruct tc, hum; reflexivity|].
  destruct wr as [w|]; [destruct tc, hum; reflexivity|].
  destruct Hside as [[x Hx]|[x Hx]]; discriminate.
Qed.

Lemma broodminder_to_point_side_without_total_witness :
  broodminder_to_point config0 0 reading_side_only None = Raised TypeError.
Proof.
  apply (broodminder_to_point_side_without_total config0 0 reading_side_only None).
  - reflexivity.
  - left. eexists. reflexivity.
Defined.



